(** * ARC research assistant: the hybrid retrieval pipeline of
      [streamlit_app.py], embedded in Rocq.

    The script is a Streamlit page. It resolves four credentials, builds a
    generative-AI client and a Neo4j driver, and answers every chat input
    with [run_hybrid_query]: embed the query, run two Cypher queries in one
    database session, assemble an evidence text, and ask the generative model
    for the answer.

    The embedding keeps the code's shape. External collaborators (process
    environment, secret store, embedding service, graph database, generative
    model) are oracles collected in [Services]; every interaction is logged
    in a trace, and the oracles may answer differently depending on what has
    happened so far. Python exceptions are an explicit outcome. *)

From Stdlib Require Import Ascii String SpecFloat DecimalString.
From stdpp Require Import gmap strings list.

(** ** Strings *)

(** A Python [str] is a Rocq [string]; one [ascii] stands for one character. *)

(** The line feed of ["\n"]. *)
Definition nl : string := String "010"%char EmptyString.

(** [sep.join(parts)] *)
Definition join (sep : string) (parts : list string) : string :=
  String.concat sep parts.

(** [text[:n]]: the first [n] characters, or all of [text] when it is
    shorter. *)
Fixpoint slice_to (n : nat) (text : string) : string :=
  match n, text with
  | S n', String c rest => String c (slice_to n' rest)
  | _, _ => EmptyString
  end.

(** How an f-string renders a value that is either [None] or a [str]. *)
Definition format_value (v : option string) : string :=
  match v with
  | Some s => s
  | None => "None"
  end.

(** How an f-string renders a non-negative [int], such as a [len]. *)
Definition format_nat (n : nat) : string :=
  NilZero.string_of_uint (Nat.to_uint n).

(** [needle in haystack] for two strings. *)
Definition contains (needle haystack : string) : Prop :=
  ∃ before after, haystack = before +:+ needle +:+ after.

(** ** Exceptions and outcomes *)

(** An exception object deriving from Python's [Exception], as the
    interpreter and the client libraries raise them: its class and what
    [str(e)] gives. *)
Record exn := mk_exn { exn_class : string; exn_str : string }.

Definition TypeError (msg : string) : exn := mk_exn "TypeError" msg.
Definition IndexError (msg : string) : exn := mk_exn "IndexError" msg.

(** [KeyError(key)]; [str] of it is the [repr] of the key. *)
Definition KeyError (key : string) : exn :=
  mk_exn "KeyError" ("'" +:+ key +:+ "'").

(** What Streamlit raises when [st.secrets] is read and there is no secrets
    file: a [FileNotFoundError], not a [KeyError]. Its message, which lists
    the paths that were searched, is abridged. *)
Definition StreamlitSecretNotFoundError : exn :=
  mk_exn "StreamlitSecretNotFoundError" "No secrets found.".

(** How a piece of the script ends: with a value, with an exception on its
    way up the stack, or stopped by [st.stop()]. Streamlit's stop is not an
    [Exception], so no [except Exception] handler sees it. *)
Inductive Outcome (A : Type) : Type :=
| Ok (a : A)
| Raise (e : exn)
| Stopped.
Arguments Ok {A} a.
Arguments Raise {A} e.
Arguments Stopped {A}.

(** ** Floating-point scores *)

(** Similarity scores are IEEE 754 doubles. *)
Definition score := spec_float.

(** The literal [0.72] of the entity query: the double nearest to 72/100,
    6485183463413514 * 2^-53. *)
Definition threshold : score := S754_finite false 6485183463413514 (-53).

(** [score > 0.72] *)
Definition above_threshold (sc : score) : bool := SFltb threshold sc.

(** An embedding vector as the embedding service hands it out ([values] may
    be absent in the response object). *)
Definition Vec := option (list spec_float).

(** ** The graph database *)

(** A node; [name] and [text] are properties and may be missing (Cypher
    [null], Python [None]). *)
Record Node := mk_node {
  node_id : nat;
  node_name : option string;
  node_text : option string
}.

(** A relationship with its type and its [evidence] property. *)
Record Rel := mk_rel {
  rel_type : string;
  rel_start : Node;
  rel_end : Node;
  rel_evidence : option string
}.

(** The stored graph. [vector_index name vec] is the full ranking the vector
    index called [name] computes for [vec]; [db.index.vector.queryNodes]
    cuts it to the number of neighbours asked for. *)
Record Graph := mk_graph {
  relationships : list Rel;
  vector_index : string → Vec → list (Node * score)
}.

(** [CALL db.index.vector.queryNodes(index, k, $vec) YIELD node, score] *)
Definition queryNodes (g : Graph) (index : string) (k : nat) (vec : Vec)
  : list (Node * score) :=
  take k (vector_index g index vec).

(** [MATCH (start)-[r]-(end)]: every relationship touching [start], in either
    direction, with the node at its other side. *)
Definition other_end (start : Node) (r : Rel) : option (Rel * Node) :=
  if Nat.eqb (node_id (rel_start r)) (node_id start) then Some (r, rel_end r)
  else if Nat.eqb (node_id (rel_end r)) (node_id start) then Some (r, rel_start r)
  else None.

Definition one_hop (g : Graph) (start : Node) : list (Rel * Node) :=
  omap (other_end start) (relationships g).

(** A record of the literature query: [text], [score]. *)
Record ChunkRecord := mk_chunk {
  rec_text : option string;
  rec_score : score
}.

(** A record of the entity query: [s], [rel], [t], [ev]. *)
Record TripleRecord := mk_triple {
  row_s : option string;
  row_rel : string;
  row_t : option string;
  row_ev : option string
}.

(** <<
    CALL db.index.vector.queryNodes('paper_vectors', 5, $vec)
    YIELD node, score
    RETURN node.text as text, score
    >> *)
Definition chunk_query (g : Graph) (vec : Vec) : list ChunkRecord :=
  map (λ hit, mk_chunk (node_text hit.1) hit.2)
      (queryNodes g "paper_vectors" 5 vec).

(** [RETURN start.name as s, type(r) as rel, end.name as t, r.evidence as ev]
    for the matches of one start node. *)
Definition expand (g : Graph) (start : Node) : list TripleRecord :=
  map (λ m, mk_triple (node_name start) (rel_type m.1) (node_name m.2)
                      (rel_evidence m.1))
      (one_hop g start).

(** <<
    CALL db.index.vector.queryNodes('entity_vectors', 5, $vec)
    YIELD node AS start, score
    WHERE score > 0.72
    MATCH (start)-[r]-(end)
    RETURN start.name as s, type(r) as rel, end.name as t, r.evidence as ev
    LIMIT 15
    >> *)
Definition anchors (g : Graph) (vec : Vec) : list (Node * score) :=
  List.filter (λ hit, above_threshold hit.2)
              (queryNodes g "entity_vectors" 5 vec).

Definition triple_query (g : Graph) (vec : Vec) : list TripleRecord :=
  take 15 (flat_map (λ hit, expand g hit.1) (anchors g vec)).

(** The two query texts the script sends. *)
Inductive Query := ChunkQuery | TripleQuery.

(** ** Service objects *)

(** [emb_resp.embeddings[0].values] reads these two objects. *)
Record ContentEmbedding := mk_embedding { values : Vec }.
Record EmbedContentResponse := mk_embed_response {
  embeddings : option (list ContentEmbedding)
}.

(** [final.text] *)
Record GenerateContentResponse := mk_generate_response { text : string }.

(** The four resolved credentials: [api_key], [neo_uri], [neo_auth]. *)
Record Credentials := mk_credentials {
  api_key : string;
  neo_uri : string;
  neo_auth : string * string
}.

(** An entry of [st.session_state.history]. *)
Inductive Role := user | assistant.
Record ChatMessage := mk_message { role : Role; content : string }.

(** ** Interactions with the outside *)

Inductive Event :=
| EvGetenv (name : string)                      (* os.getenv(name) *)
| EvSecret (name : string)                      (* st.secrets[name] *)
| EvSt (call : string) (arg : string)           (* st.call(arg) *)
| EvConnect (creds : Credentials)               (* body of get_clients *)
| EvEmbedContent (model contents : string)      (* client.models.embed_content *)
| EvSessionOpen                                 (* driver.session().__enter__ *)
| EvRun (q : Query) (vec : Vec)                 (* sess.run(q, vec=vec) *)
| EvSessionClose                                (* __exit__ *)
| EvPrint (line : string)                       (* print(line) *)
| EvGenerateContent (model contents : string).  (* client.models.generate_content *)

(** What the script can carry from one moment to the next, and from one call
    to the next: the log of its interactions, the Streamlit session state
    and the resource cache behind [@st.cache_resource]. *)
Record State := mk_state {
  trace : list Event;
  history : option (list ChatMessage);
  clients : option Credentials
}.

(** The collaborators. [environ] is the process environment as the process
    starts and [secrets_toml] the secrets file, if there is one.
    [make_clients] tells whether the two constructors of [get_clients]
    accept the credentials or raise. Services receive the interactions so
    far, so they may be stateful or flaky; the database either fails a query
    or answers it from the graph it stores at that moment. *)
Record Services := mk_services {
  environ : gmap string string;
  secrets_toml : option (gmap string string);
  make_clients : list Event → Credentials → option exn;
  embed_content : list Event → string → string → exn + EmbedContentResponse;
  db_fault : list Event → Query → Vec → option exn;
  db_graph : list Event → Graph;
  generate_content : list Event → string → string → exn + GenerateContentResponse
}.

(** ** The script monad: state passing with exceptions *)

Definition M (A : Type) : Type := State → Outcome A * State.

Definition ret {A} (a : A) : M A := λ st, (Ok a, st).

Definition bind {A B} (m : M A) (k : A → M B) : M B := λ st,
  match m st with
  | (Ok a, st') => k a st'
  | (Raise e, st') => (Raise e, st')
  | (Stopped, st') => (Stopped, st')
  end.

Declare Scope script_scope.
Delimit Scope script_scope with script.
Notation "x <- m ;; k" := (bind m (λ x, k))
  (at level 100, m at next level, right associativity) : script_scope.
Notation "m ;;; k" := (bind m (λ _, k))
  (at level 100, right associativity) : script_scope.
Local Open Scope script_scope.

(** [raise e] *)
Definition raise {A} (e : exn) : M A := λ st, (Raise e, st).

(** A computation without effects that may raise. *)
Definition lift {A} (o : Outcome A) : M A := λ st, (o, st).

(** Record one interaction. *)
Definition log_event (ev : Event) (st : State) : State :=
  mk_state (trace st ++ [ev]) (history st) (clients st).

Definition emit (ev : Event) : M unit := λ st, (Ok tt, log_event ev st).

(** [try: body / except Exception as e: handler e] *)
Definition try_except {A} (body : M A) (handler : exn → M A) : M A := λ st,
  match body st with
  | (Raise e, st') => handler e st'
  | other => other
  end.

(** [try: body / except cls: handler]; other exceptions keep going up. *)
Definition try_except_class {A} (cls : string) (body : M A) (handler : M A)
  : M A := λ st,
  match body st with
  | (Raise e, st') =>
      if String.eqb (exn_class e) cls then handler st' else (Raise e, st')
  | other => other
  end.

(** [with driver.session() as sess: body]: the session is released however
    the body ends. *)
Definition with_session {A} (body : M A) : M A := λ st,
  let '(out, st') := body (log_event EvSessionOpen st) in
  (out, log_event EvSessionClose st').

(** *** Calls to the services *)

Definition call_embed_content (sv : Services) (model contents : string)
  : M EmbedContentResponse := λ st,
  let st' := log_event (EvEmbedContent model contents) st in
  match embed_content sv (trace st) model contents with
  | inl e => (Raise e, st')
  | inr resp => (Ok resp, st')
  end.

Definition call_generate_content (sv : Services) (model contents : string)
  : M GenerateContentResponse := λ st,
  let st' := log_event (EvGenerateContent model contents) st in
  match generate_content sv (trace st) model contents with
  | inl e => (Raise e, st')
  | inr resp => (Ok resp, st')
  end.

(** [sess.run(query, vec=q_vec)], read to the end. *)
Definition sess_run {R} (sv : Services) (q : Query)
    (eval : Graph → Vec → list R) (vec : Vec) : M (list R) := λ st,
  let st' := log_event (EvRun q vec) st in
  match db_fault sv (trace st) q vec with
  | Some e => (Raise e, st')
  | None => (Ok (eval (db_graph sv (trace st)) vec), st')
  end.

(** ** Hybrid search: [run_hybrid_query] *)

(** [emb_resp.embeddings[0].values] *)
Definition first_embedding_values (emb_resp : EmbedContentResponse)
  : Outcome Vec :=
  match embeddings emb_resp with
  | None => Raise (TypeError "'NoneType' object is not subscriptable")
  | Some [] => Raise (IndexError "list index out of range")
  | Some (e :: _) => Ok (values e)
  end.

Definition EMBEDDING_MODEL : string := "text-embedding-004".
Definition GENERATIVE_MODEL : string := "gemini-3-flash-preview".

Definition LITERATURE_HEADER : string := "=== LITERATURE SNIPPETS ===".
Definition FACTS_HEADER : string := nl +:+ "=== KNOWLEDGE GRAPH FACTS ===".

(** [f"- {rec['text'][:300]}..."]; slicing [None] is a [TypeError]. *)
Definition snippet_line (rec : ChunkRecord) : Outcome string :=
  match rec_text rec with
  | None => Raise (TypeError "'NoneType' object is not subscriptable")
  | Some txt => Ok ("- " +:+ slice_to 300 txt +:+ "...")
  end.

(** <<
    for rec in chunk_res:
        evidence_dump.append(f"- {rec['text'][:300]}...")
    >> *)
Fixpoint literature_loop (chunk_res : list ChunkRecord)
    (evidence_dump : list string) : Outcome (list string) :=
  match chunk_res with
  | [] => Ok evidence_dump
  | rec :: rest =>
      match snippet_line rec with
      | Ok line => literature_loop rest (evidence_dump ++ [line])
      | Raise e => Raise e
      | Stopped => Stopped
      end
  end.

(** [f"{row['s']} -> {row['rel']} -> {row['t']}"] *)
Definition triple_of (row : TripleRecord) : string :=
  format_value (row_s row) +:+ " -> " +:+ row_rel row +:+ " -> "
    +:+ format_value (row_t row).

(** <<
    for row in triple_res:
        triple = f"{row['s']} -> {row['rel']} -> {row['t']}"
        if triple not in seen_triples:
            evidence_dump.append(f"FACT: {triple}")
            seen_triples.add(triple)
    >> *)
Fixpoint facts_loop (triple_res : list TripleRecord)
    (evidence_dump : list string) (seen_triples : gset string)
  : list string * gset string :=
  match triple_res with
  | [] => (evidence_dump, seen_triples)
  | row :: rest =>
      let triple := triple_of row in
      if decide (triple ∈ seen_triples)
      then facts_loop rest evidence_dump seen_triples
      else facts_loop rest (evidence_dump ++ ["FACT: " +:+ triple])
                      ({[triple]} ∪ seen_triples)
  end.

(** The f-string [sys_prompt]: three literal parts around the two
    interpolated values. *)
Definition PROMPT_HEAD : string :=
  nl +:+ "    You are ARC (Analysis for Research Collaboration). "
  +:+ nl +:+ "    Answer the user's question based strictly on the provided evidence."
  +:+ nl +:+ "    "
  +:+ nl +:+ "    EVIDENCE:"
  +:+ nl +:+ "    ".

Definition PROMPT_MIDDLE : string :=
  nl +:+ "    "
  +:+ nl +:+ "    QUESTION: ".

Definition PROMPT_TAIL : string := nl +:+ "    ".

Definition sys_prompt (full_context query_text : string) : string :=
  PROMPT_HEAD +:+ full_context +:+ PROMPT_MIDDLE +:+ query_text +:+ PROMPT_TAIL.

(** The body of the [with driver.session() as sess:] block, entered with
    the list [evidence_dump]; its value is that list as the block leaves
    it. *)
Definition session_body (sv : Services) (query_text : string) (q_vec : Vec)
    (evidence_dump : list string) : M (list string) :=
  chunk_res <- sess_run sv ChunkQuery chunk_query q_vec ;;
  let evidence_dump := evidence_dump ++ [LITERATURE_HEADER] in
  evidence_dump <- lift (literature_loop chunk_res evidence_dump) ;;
  triple_res <- sess_run sv TripleQuery triple_query q_vec ;;
  let evidence_dump := evidence_dump ++ [FACTS_HEADER] in
  let seen_triples : gset string := ∅ in
  let '(evidence_dump, seen_triples) :=
    facts_loop triple_res evidence_dump seen_triples in
  emit (EvPrint ("DEBUG: Found " +:+ format_nat (size seen_triples)
                 +:+ " unique graph facts for query: '" +:+ query_text +:+ "'")) ;;;
  ret evidence_dump.

(** The [try] block: embed the query and take the vector out of the
    response. *)
Definition embed_query (sv : Services) (query_text : string) : M Vec :=
  emb_resp <- call_embed_content sv EMBEDDING_MODEL query_text ;;
  lift (first_embedding_values emb_resp).

(** [run_hybrid_query(query_text)]: the pair [(answer, evidence)]. The
    [except] branch returns at once; otherwise the function goes on with the
    vector. *)
Definition run_hybrid_query (sv : Services) (query_text : string)
  : M (string * string) :=
  attempt <- try_except
    (q_vec <- embed_query sv query_text ;; ret (inr q_vec))
    (λ e, ret (inl ("Embedding Error: " +:+ exn_str e, EmptyString))) ;;
  match attempt with
  | inl early => ret early
  | inr q_vec =>
      let evidence_dump := [] in
      evidence_dump <-
        with_session (session_body sv query_text q_vec evidence_dump) ;;
      let full_context := join nl evidence_dump in
      final <- call_generate_content sv GENERATIVE_MODEL
                 (sys_prompt full_context query_text) ;;
      ret (text final, full_context)
  end.

(** ** The page script around it *)

(** The content of the secret store; nothing when there is no file. *)
Definition secrets (sv : Services) : gmap string string :=
  default ∅ (secrets_toml sv).

(** Look-ups in the secret store. *)
Definition secret_event (ev : Event) : bool :=
  match ev with
  | EvSecret _ => true
  | _ => false
  end.

(** Streamlit parses an existing secrets file at the first access to
    [st.secrets], and keeps the result for the life of the process. *)
Definition secrets_loaded (sv : Services) (tr : list Event) : bool :=
  match secrets_toml sv with
  | Some _ => existsb secret_event tr
  | None => false
  end.

(** [os.environ] after the interactions [tr]: parsing the secrets file
    writes every secret into the environment, over a variable of the same
    name. *)
Definition process_env (sv : Services) (tr : list Event) : gmap string string :=
  if secrets_loaded sv tr then secrets sv ∪ environ sv else environ sv.

(** [os.getenv(name)] *)
Definition getenv (sv : Services) (name : string) : M (option string) := λ st,
  (Ok (process_env sv (trace st) !! name), log_event (EvGetenv name) st).

(** [st.secrets[name]]: without a secrets file every access raises
    [StreamlitSecretNotFoundError]; with one, a missing key is a
    [KeyError]. *)
Definition secret (sv : Services) (name : string) : M string :=
  emit (EvSecret name) ;;;
  match secrets_toml sv with
  | None => raise StreamlitSecretNotFoundError
  | Some store =>
      match store !! name with
      | Some v => ret v
      | None => raise (KeyError name)
      end
  end.

(** Truth value of what [os.getenv] returns: [None] and the empty string are
    false. *)
Definition truthy (v : option string) : bool :=
  match v with
  | Some s => negb (String.eqb s EmptyString)
  | None => false
  end.

(** [os.getenv(name) or st.secrets[name]] *)
Definition getenv_or_secret (sv : Services) (name : string) : M string :=
  v <- getenv sv name ;;
  match v with
  | Some s => if truthy v then ret s else secret sv name
  | None => secret sv name
  end.

Definition st_stop {A} : M A := λ st,
  (Stopped, log_event (EvSt "stop" EmptyString) st).

Definition MISSING_SECRETS : string :=
  "Missing Secrets! Check .env or streamlit secrets.".

(** The [try] / [except KeyError] block at the top of the module. *)
Definition load_credentials (sv : Services) : M Credentials :=
  try_except_class "KeyError"
    (api_key <- getenv_or_secret sv "GOOGLE_API_KEY" ;;
     neo_uri <- getenv_or_secret sv "NEO4J_URI" ;;
     neo_user <- getenv_or_secret sv "NEO4J_USER" ;;
     neo_password <- getenv_or_secret sv "NEO4J_PASSWORD" ;;
     ret (mk_credentials api_key neo_uri (neo_user, neo_password)))
    (emit (EvSt "error" MISSING_SECRETS) ;;; st_stop).

(** [get_clients()] under [@st.cache_resource]: a cached pair is returned
    as it is; otherwise the body runs, and its result is cached unless one
    of the two constructors raises. *)
Definition get_clients (sv : Services) (creds : Credentials) : M Credentials :=
  λ st,
  match clients st with
  | Some cached => (Ok cached, st)
  | None =>
      match make_clients sv (trace st) creds with
      | Some e =>
          (Raise e, mk_state (trace st ++ [EvConnect creds]) (history st) None)
      | None =>
          (Ok creds,
           mk_state (trace st ++ [EvConnect creds]) (history st) (Some creds))
      end
  end.

Definition role_name (r : Role) : string :=
  match r with user => "user" | assistant => "assistant" end.

(** [st.session_state.history.append(msg)] *)
Definition append_history (msg : ChatMessage) : M unit := λ st,
  (Ok tt,
   mk_state (trace st) (Some (default [] (history st) ++ [msg])) (clients st)).

(** [if "history" not in st.session_state: st.session_state.history = []] *)
Definition init_history : M unit := λ st,
  match history st with
  | Some _ => (Ok tt, st)
  | None => (Ok tt, mk_state (trace st) (Some []) (clients st))
  end.

Fixpoint render_history (msgs : list ChatMessage) : M unit :=
  match msgs with
  | [] => ret tt
  | msg :: rest =>
      emit (EvSt "chat_message" (role_name (role msg))) ;;;
      emit (EvSt "markdown" (content msg)) ;;;
      render_history rest
  end.

(** The [if user_in:] block. *)
Definition chat_turn (sv : Services) (user_in : string) : M unit :=
  append_history (mk_message user user_in) ;;;
  emit (EvSt "chat_message" "user") ;;;
  emit (EvSt "markdown" user_in) ;;;
  emit (EvSt "chat_message" "assistant") ;;;
  emit (EvSt "spinner" "Traversing graph...") ;;;
  result <- run_hybrid_query sv user_in ;;
  let '(ans, raw_ev) := result in
  emit (EvSt "markdown" ans) ;;;
  emit (EvSt "expander" "Inspect Retrieval Evidence") ;;;
  emit (EvSt "code" raw_ev) ;;;
  append_history (mk_message assistant ans).

(** One run of the script; [user_in] is what [st.chat_input] returns. *)
Definition app (sv : Services) (user_in : option string) : M unit :=
  emit (EvSt "set_page_config" "ARC: Cancer Research Assistant") ;;;
  creds <- load_credentials sv ;;
  _ <- get_clients sv creds ;;
  emit (EvSt "title" "ARC: Cancer Research Assistant") ;;;
  init_history ;;;
  (λ st, render_history (default [] (history st)) st) ;;;
  emit (EvSt "chat_input" "Query the knowledge base...") ;;;
  if truthy user_in then chat_turn sv (default EmptyString user_in)
  else ret tt.

(** ** A small world to run the script in *)

Module Demo.

(** 0.9 and 0.5 as doubles. *)
Definition sc_090 : score := S754_finite false 8106479329266893 (-53).
Definition sc_050 : score := S754_finite false 4503599627370496 (-53).

Definition egfr : Node := mk_node 1 (Some "EGFR") None.
Definition gefitinib : Node := mk_node 2 (Some "Gefitinib") None.
Definition erlotinib : Node := mk_node 3 (Some "Erlotinib") None.
Definition kras : Node := mk_node 4 (Some "KRAS") None.
Definition sos1 : Node := mk_node 5 (Some "SOS1") None.
Definition chunk1 : Node :=
  mk_node 10 None (Some "Gefitinib is an EGFR tyrosine kinase inhibitor.").
Definition chunk2 : Node :=
  mk_node 11 None (Some "Erlotinib targets EGFR in lung cancer.").

Definition graph : Graph :=
  mk_graph
    [ mk_rel "INHIBITS" gefitinib egfr (Some "trial A");
      mk_rel "INHIBITS" gefitinib egfr (Some "trial B");
      mk_rel "INHIBITS" erlotinib egfr None;
      mk_rel "ACTIVATES" sos1 kras (Some "review") ]
    (λ index _,
       if String.eqb index "paper_vectors"
       then [ (chunk1, sc_090); (chunk2, sc_050) ]
       else [ (egfr, sc_090); (kras, threshold); (sos1, sc_050) ]).

Definition vec : Vec := Some [sc_090; sc_050].

Definition full_env : gmap string string :=
  <["GOOGLE_API_KEY" := "k"]> (<["NEO4J_URI" := "bolt://db"]>
    (<["NEO4J_USER" := "neo4j"]> (<["NEO4J_PASSWORD" := "pw"]> ∅))).

(** The constructors of the clients refuse an empty API key. *)
Definition constructors (tr : list Event) (creds : Credentials) : option exn :=
  if String.eqb (api_key creds) EmptyString
  then Some (mk_exn "ValueError" "Missing key inputs argument!")
  else None.

(** Every service answers, always the same; there is no secrets file. *)
Definition services : Services :=
  mk_services full_env None constructors
    (λ _ _ _, inr (mk_embed_response (Some [mk_embedding vec])))
    (λ _ _ _, None)
    (λ _, graph)
    (λ _ _ _, inr (mk_generate_response "Gefitinib and erlotinib.")).

(** The embedding service is down. *)
Definition embed_down : Services :=
  mk_services full_env None constructors
    (λ _ _ _, inl (mk_exn "ServerError" "503 UNAVAILABLE"))
    (λ _ _ _, None)
    (λ _, graph)
    (λ _ _ _, inr (mk_generate_response "unused")).

(** The database refuses the entity query. *)
Definition db_down : Services :=
  mk_services full_env None constructors
    (λ _ _ _, inr (mk_embed_response (Some [mk_embedding vec])))
    (λ _ q _, match q with
              | ChunkQuery => None
              | TripleQuery => Some (mk_exn "ServiceUnavailable" "connection lost")
              end)
    (λ _, graph)
    (λ _ _ _, inr (mk_generate_response "unused")).

(** The generative model fails. *)
Definition model_down : Services :=
  mk_services full_env None constructors
    (λ _ _ _, inr (mk_embed_response (Some [mk_embedding vec])))
    (λ _ _ _, None)
    (λ _, graph)
    (λ _ _ _, inl (mk_exn "ClientError" "429 RESOURCE_EXHAUSTED")).

(** The database password is nowhere, the user name is set but empty. *)
Definition no_password : Services :=
  mk_services
    (<["GOOGLE_API_KEY" := "k"]> (<["NEO4J_URI" := "bolt://db"]>
       (<["NEO4J_USER" := EmptyString]> ∅)))
    (Some (<["NEO4J_USER" := "neo4j"]> ∅))
    constructors
    (embed_content services) (db_fault services) (db_graph services)
    (generate_content services).


(** The API key is nowhere and there is no secrets file. *)
Definition no_store_no_key : Services :=
  mk_services
    (<["NEO4J_URI" := "bolt://db"]> (<["NEO4J_USER" := "neo4j"]>
       (<["NEO4J_PASSWORD" := "pw"]> ∅)))
    None constructors
    (embed_content services) (db_fault services) (db_graph services)
    (generate_content services).

(** The API key is nowhere; the secrets file exists and is empty. *)
Definition empty_store_no_key : Services :=
  mk_services (environ no_store_no_key) (Some ∅) constructors
    (embed_content services) (db_fault services) (db_graph services)
    (generate_content services).

(** The environment is empty and the secrets file holds an empty string for
    each credential. *)
Definition empty_secrets : Services :=
  mk_services ∅
    (Some (<["GOOGLE_API_KEY" := EmptyString]> (<["NEO4J_URI" := EmptyString]>
       (<["NEO4J_USER" := EmptyString]>
          (<["NEO4J_PASSWORD" := EmptyString]> ∅)))))
    constructors
    (embed_content services) (db_fault services) (db_graph services)
    (generate_content services).

(** The database is empty. *)
Definition empty_graph : Graph := mk_graph [] (λ _ _, []).
Definition empty_db : Services :=
  mk_services full_env None constructors
    (λ _ _ _, inr (mk_embed_response (Some [mk_embedding vec])))
    (λ _ _ _, None)
    (λ _, empty_graph)
    (λ _ _ _, inr (mk_generate_response "I found no evidence.")).

Definition start : State := mk_state [] None None.
Definition question : string := "What inhibits EGFR?".

(** What the first world answers to the question. *)
Definition snippets : list string :=
  [ "- Gefitinib is an EGFR tyrosine kinase inhibitor....";
    "- Erlotinib targets EGFR in lung cancer...." ].
Definition facts : list string :=
  [ "FACT: EGFR -> INHIBITS -> Gefitinib";
    "FACT: EGFR -> INHIBITS -> Erlotinib" ].
Definition evidence : string :=
  join nl ([ "=== LITERATURE SNIPPETS ===" ] ++ snippets
           ++ [ EmptyString; "=== KNOWLEDGE GRAPH FACTS ===" ] ++ facts).
Definition answer : string := "Gefitinib and erlotinib.".
Definition embedded : State :=
  mk_state [EvEmbedContent "text-embedding-004" question] None None.
Definition finished : State :=
  mk_state
    [ EvEmbedContent "text-embedding-004" question;
      EvSessionOpen;
      EvRun ChunkQuery vec;
      EvRun TripleQuery vec;
      EvPrint "DEBUG: Found 2 unique graph facts for query: 'What inhibits EGFR?'";
      EvSessionClose;
      EvGenerateContent "gemini-3-flash-preview" (sys_prompt evidence question) ]
    None None.

(** The literature index returns a node that has no text. *)
Definition untexted_graph : Graph :=
  mk_graph (relationships graph)
    (λ index _,
       if String.eqb index "paper_vectors"
       then [ (chunk1, sc_090); (egfr, sc_050) ]
       else [ (egfr, sc_090) ]).
Definition untexted : Services :=
  mk_services full_env None constructors
    (λ _ _ _, inr (mk_embed_response (Some [mk_embedding vec])))
    (λ _ _ _, None)
    (λ _, untexted_graph)
    (λ _ _ _, inr (mk_generate_response "unused")).

(** What the world with the empty database answers. *)
Definition bare_evidence : string :=
  join nl [ "=== LITERATURE SNIPPETS ==="; EmptyString;
            "=== KNOWLEDGE GRAPH FACTS ===" ].
Definition bare_finished : State :=
  mk_state
    [ EvEmbedContent "text-embedding-004" question;
      EvSessionOpen;
      EvRun ChunkQuery vec;
      EvRun TripleQuery vec;
      EvPrint "DEBUG: Found 0 unique graph facts for query: 'What inhibits EGFR?'";
      EvSessionClose;
      EvGenerateContent "gemini-3-flash-preview"
        (sys_prompt bare_evidence question) ]
    None None.

End Demo.

(** ** Vocabulary of the properties *)

(** The records the two queries return during a call of [run_hybrid_query]
    that starts in state [st] and embeds [query_text] as [q_vec]: the
    database is asked after the embedding call and the opening of the
    session, and for the entities after the literature query as well. *)
Definition chunk_rows (sv : Services) (query_text : string) (q_vec : Vec)
    (st : State) : list ChunkRecord :=
  chunk_query
    (db_graph sv (trace st ++ [EvEmbedContent EMBEDDING_MODEL query_text;
                               EvSessionOpen]))
    q_vec.

Definition triple_rows (sv : Services) (query_text : string) (q_vec : Vec)
    (st : State) : list TripleRecord :=
  triple_query
    (db_graph sv (trace st ++ [EvEmbedContent EMBEDDING_MODEL query_text;
                               EvSessionOpen; EvRun ChunkQuery q_vec]))
    q_vec.

(** The lines each loop appends to an empty list. *)
Definition snippet_lines (chunk_res : list ChunkRecord) : Outcome (list string) :=
  literature_loop chunk_res [].

Definition fact_lines (triple_res : list TripleRecord) : list string :=
  (facts_loop triple_res [] ∅).1.

Definition fact_line (triple : string) : string := "FACT: " +:+ triple.

(** A section of the evidence text: its header line, then its lines. *)
Definition literature_section (lines : list string) : string :=
  join nl (LITERATURE_HEADER :: lines).

Definition facts_section (lines : list string) : string :=
  join nl (FACTS_HEADER :: lines).

(** [full_context] is made of the snippet lines [lits] and the fact lines
    [facts] of the call. *)
Definition evidence_sections (sv : Services) (query_text : string)
    (q_vec : Vec) (st : State) (full_context : string)
    (lits facts : list string) : Prop :=
  snippet_lines (chunk_rows sv query_text q_vec st) = Ok lits
  ∧ facts = fact_lines (triple_rows sv query_text q_vec st)
  ∧ full_context = literature_section lits +:+ nl +:+ facts_section facts.

(** Deduplication as the specification words it: keep a key when it has not
    been seen before, in order of arrival. *)
Fixpoint unseen (keys seen : list string) : list string :=
  match keys with
  | [] => []
  | k :: rest =>
      if decide (k ∈ seen) then unseen rest seen
      else k :: unseen rest (k :: seen)
  end.

Definition first_occurrences (keys : list string) : list string :=
  unseen keys [].

(** Events that open, use or close a database session. *)
Definition db_event (ev : Event) : bool :=
  match ev with
  | EvSessionOpen | EvRun _ _ | EvSessionClose => true
  | _ => false
  end.

(** Requests to the generative model. *)
Definition generate_event (ev : Event) : bool :=
  match ev with
  | EvGenerateContent _ _ => true
  | _ => false
  end.


(** The names of the four credentials. *)
Definition CREDENTIAL_NAMES : list string :=
  ["GOOGLE_API_KEY"; "NEO4J_URI"; "NEO4J_USER"; "NEO4J_PASSWORD"].

(** A credential is missing from the environment (unset, or set to the
    empty string) and from the secret store. *)
Definition missing (sv : Services) (name : string) : Prop :=
  truthy (environ sv !! name) = false ∧ secrets sv !! name = None.

(** What [os.getenv(name) or st.secrets[name]] evaluates to after the
    interactions [tr], when a secrets file exists: the value of the
    environment at that moment if it is true, the value of the store
    otherwise; [None] stands for the [KeyError]. *)
Definition resolved (sv : Services) (tr : list Event) (name : string)
  : option string :=
  if truthy (process_env sv tr !! name) then process_env sv tr !! name
  else secrets sv !! name.

(** The look-ups that evaluation makes. *)
Definition lookups (sv : Services) (tr : list Event) (name : string)
  : list Event :=
  if truthy (process_env sv tr !! name) then [EvGetenv name]
  else [EvGetenv name; EvSecret name].

(** What the script does before it has its credentials: the page
    configuration and the look-ups. *)
Definition startup_event (ev : Event) : bool :=
  match ev with
  | EvGetenv _ | EvSecret _ => true
  | EvSt call _ => String.eqb call "set_page_config"
  | _ => false
  end.

(** The same services, with the variable [name] removed from the process
    environment. *)
Definition unset_env (name : string) (sv : Services) : Services :=
  mk_services (delete name (environ sv)) (secrets_toml sv) (make_clients sv)
    (embed_content sv) (db_fault sv) (db_graph sv) (generate_content sv).

(** What re-drawing the stored conversation shows: for every message its
    chat bubble, then its text. *)
Definition render_events (msgs : list ChatMessage) : list Event :=
  flat_map (λ msg, [EvSt "chat_message" (role_name (role msg));
                    EvSt "markdown" (content msg)]) msgs.

(** Requests to the embedding service, the database or the generative
    model. *)
Definition service_event (ev : Event) : bool :=
  match ev with
  | EvEmbedContent _ _ | EvSessionOpen | EvRun _ _ | EvSessionClose
  | EvGenerateContent _ _ => true
  | _ => false
  end.

(** What [chat_turn] shows before it calls [run_hybrid_query]. *)
Definition turn_opening (user_in : string) : list Event :=
  [EvSt "chat_message" "user"; EvSt "markdown" user_in;
   EvSt "chat_message" "assistant"; EvSt "spinner" "Traversing graph..."].

(** The line the session block prints when it has written [n] facts. *)
Definition debug_line (n : nat) (query_text : string) : string :=
  "DEBUG: Found " +:+ format_nat n
  +:+ " unique graph facts for query: '" +:+ query_text +:+ "'".

(** A relationship touches a node. *)
Definition touches (r : Rel) (n : Node) : Prop :=
  node_id (rel_start r) = node_id n ∨ node_id (rel_end r) = node_id n.

(** * Properties *)

(** ** Strings and lists *)

Lemma append_cons (ch : ascii) (a b : string) :
  String ch a +:+ b = String ch (a +:+ b).
Proof. reflexivity. Qed.

Lemma append_assoc (a b c : string) : (a +:+ b) +:+ c = a +:+ (b +:+ c).
Proof.
  induction a as [|ch a IH]; [done |].
  by rewrite !append_cons, IH.
Qed.

#[local] Instance fact_line_inj : Inj (=) (=) fact_line.
Proof. unfold fact_line. apply _. Qed.

Lemma slice_to_length (n : nat) (txt : string) :
  String.length (slice_to n txt) ≤ n.
Proof.
  revert txt; induction n as [|n IH]; intros [|ch txt]; simpl; try lia.
  specialize (IH txt). lia.
Qed.

Lemma slice_to_prefix (n : nat) (txt : string) :
  ∃ rest, txt = slice_to n txt +:+ rest.
Proof.
  revert txt; induction n as [|n IH]; intros [|ch txt]; simpl; eauto.
  destruct (IH txt) as [rest Hrest]. exists rest.
  by rewrite append_cons, <- Hrest.
Qed.

Lemma slice_to_short (n : nat) (txt : string) :
  String.length txt ≤ n → slice_to n txt = txt.
Proof.
  revert txt; induction n as [|n IH]; intros [|ch txt]; simpl; try done; try lia.
  intros H. rewrite IH; [done | lia].
Qed.

Lemma join_cons (sep x : string) (ys : list string) :
  ys ≠ [] → join sep (x :: ys) = x +:+ sep +:+ join sep ys.
Proof. by destruct ys. Qed.

(** Joining two non-empty runs of lines puts one separator between them. *)
Lemma join_app (sep : string) (xs ys : list string) :
  xs ≠ [] → ys ≠ [] →
  join sep (xs ++ ys) = join sep xs +:+ sep +:+ join sep ys.
Proof.
  intros Hxs Hys. induction xs as [|x xs IH]; [done |].
  destruct xs as [|x' xs].
  - by rewrite <- join_cons.
  - rewrite <- app_comm_cons, join_cons by done.
    rewrite IH by done.
    rewrite (join_cons sep x (x' :: xs)) by done.
    by rewrite !append_assoc.
Qed.

(** The evidence list, joined, is the literature section, a line feed, and
    the facts section. *)
Lemma join_sections (lits facts : list string) :
  join nl ([LITERATURE_HEADER] ++ lits ++ [FACTS_HEADER] ++ facts)
  = literature_section lits +:+ nl +:+ facts_section facts.
Proof.
  unfold literature_section, facts_section.
  by rewrite <- (join_app nl (LITERATURE_HEADER :: lits) (FACTS_HEADER :: facts)).
Qed.

(** ** The two loops *)

(** The literature loop appends to whatever list it is given. *)
Lemma literature_loop_app (chunk_res : list ChunkRecord) (dump : list string) :
  literature_loop chunk_res dump
  = match literature_loop chunk_res [] with
    | Ok lines => Ok (dump ++ lines)
    | Raise e => Raise e
    | Stopped => Stopped
    end.
Proof.
  revert dump. induction chunk_res as [|rec rest IH]; intros dump; simpl.
  - by rewrite app_nil_r.
  - destruct (snippet_line rec) as [line| |]; try done.
    rewrite (IH (dump ++ [line])), (IH [line]).
    destruct (literature_loop rest []); try done.
    by rewrite <- app_assoc.
Qed.

(** It appends one line per record, in order, and fails only on a record
    without text. *)
Lemma literature_loop_acc (chunk_res : list ChunkRecord)
    (dump dump' : list string) :
  literature_loop chunk_res dump = Ok dump' →
  ∃ lines, dump' = dump ++ lines ∧ snippet_lines chunk_res = Ok lines.
Proof.
  unfold snippet_lines. rewrite literature_loop_app.
  destruct (literature_loop chunk_res []) as [lines| |]; try done.
  intros [= <-]. eauto.
Qed.

Lemma snippet_lines_Forall2 (chunk_res : list ChunkRecord) (lines : list string) :
  snippet_lines chunk_res = Ok lines →
  Forall2 (λ rec line, snippet_line rec = Ok line) chunk_res lines.
Proof.
  unfold snippet_lines. revert lines.
  induction chunk_res as [|rec rest IH]; simpl; intros lines H.
  - injection H as <-. constructor.
  - destruct (snippet_line rec) as [line| |] eqn:E; try done.
    apply literature_loop_acc in H as (ls & -> & Hls).
    simpl. constructor; [done | by apply IH].
Qed.

(** [unseen] keeps no key twice, keeps nothing already seen, and drops
    nothing else. *)
Lemma elem_of_unseen (keys seen : list string) (k : string) :
  k ∈ unseen keys seen ↔ k ∈ keys ∧ k ∉ seen.
Proof.
  revert seen; induction keys as [|k0 keys IH]; intros seen; simpl.
  - set_solver.
  - destruct (decide (k0 ∈ seen)) as [Hin|Hout].
    + rewrite IH. set_solver.
    + rewrite elem_of_cons, IH.
      destruct (decide (k = k0)) as [->|Hne]; set_solver.
Qed.

Lemma NoDup_unseen (keys seen : list string) : NoDup (unseen keys seen).
Proof.
  revert seen; induction keys as [|k0 keys IH]; intros seen; simpl.
  - constructor.
  - destruct (decide (k0 ∈ seen)); [apply IH |].
    constructor; [| apply IH].
    rewrite elem_of_unseen. set_solver.
Qed.

Lemma unseen_sublist (keys seen : list string) :
  unseen keys seen `sublist_of` keys.
Proof.
  revert seen; induction keys as [|k0 keys IH]; intros seen; simpl.
  - constructor.
  - destruct (decide (k0 ∈ seen)).
    + by apply sublist_cons.
    + by apply sublist_skip.
Qed.

(** The facts loop refines [unseen]: the set of seen triples plays the role
    of the list of seen keys. *)
Lemma facts_loop_unseen (triple_res : list TripleRecord) (dump : list string)
    (seen : gset string) (seen_keys : list string) :
  (∀ k, k ∈ seen ↔ k ∈ seen_keys) →
  (facts_loop triple_res dump seen).1
  = dump ++ (fact_line <$> unseen (triple_of <$> triple_res) seen_keys).
Proof.
  revert dump seen seen_keys.
  induction triple_res as [|row rest IH]; intros dump seen seen_keys Hseen; simpl.
  - by rewrite app_nil_r.
  - destruct (decide (triple_of row ∈ seen)) as [Hin|Hout];
      destruct (decide (triple_of row ∈ seen_keys)) as [Hin'|Hout'];
      try (exfalso; naive_solver).
    + by apply IH.
    + rewrite (IH _ _ (triple_of row :: seen_keys)).
      * by rewrite <- app_assoc.
      * intros k. rewrite elem_of_union, elem_of_singleton, elem_of_cons.
        naive_solver.
Qed.

Lemma fact_lines_first_occurrences (triple_res : list TripleRecord) :
  fact_lines triple_res
  = fact_line <$> first_occurrences (triple_of <$> triple_res).
Proof.
  unfold fact_lines, first_occurrences.
  rewrite (facts_loop_unseen _ _ _ []); [done | set_solver].
Qed.

(** The number of distinct triples the loop has seen is the number of fact
    lines it has written. *)
Lemma facts_loop_acc (triple_res : list TripleRecord) (dump : list string)
    (seen : gset string) :
  (facts_loop triple_res dump seen).1
  = dump ++ (facts_loop triple_res [] seen).1.
Proof.
  rewrite (facts_loop_unseen _ dump seen (elements seen)) by set_solver.
  rewrite (facts_loop_unseen _ [] seen (elements seen)) by set_solver.
  done.
Qed.

(** ** Comparison of scores *)

(** Swapping the operands of a comparison of floats mirrors its result. *)
Lemma SFcompare_swap (x y : spec_float) :
  SFcompare y x = CompOpp <$> SFcompare x y.
Proof.
  destruct x as [sx|sx| |sx mx ex], y as [sy|sy| |sy my ey]; simpl;
    try done; try (by destruct sx); try (by destruct sy);
    try (by destruct sx, sy).
  destruct sx, sy; simpl; try done; f_equal;
    rewrite (Z.compare_antisym ex ey);
    destruct (ex ?= ey)%Z; simpl; try done;
    rewrite (Pos.compare_cont_antisym mx my Eq); simpl;
    by rewrite ?CompOpp_involutive.
Qed.

(** A score that is less than or equal to 0.72 is not above it. *)
Lemma not_above_threshold (sc : score) :
  SFleb sc threshold = true → above_threshold sc = false.
Proof.
  unfold above_threshold, SFleb, SFltb.
  rewrite (SFcompare_swap sc threshold).
  by destruct (SFcompare sc threshold) as [[]|].
Qed.

(** ** The steps of [run_hybrid_query] *)

(** The embedding step logs its one request, however it ends. *)
Lemma embed_query_state (sv : Services) (q : string) (st st1 : State)
    (out : Outcome Vec) :
  embed_query sv q st = (out, st1) →
  st1 = log_event (EvEmbedContent EMBEDDING_MODEL q) st ∧ out ≠ Stopped.
Proof.
  unfold embed_query, bind, call_embed_content, lift.
  destruct (embed_content sv (trace st) EMBEDDING_MODEL q) as [e|resp].
  - by intros [= <- <-].
  - unfold first_embedding_values.
    destruct (embeddings resp) as [[|emb rest]|]; by intros [= <- <-].
Qed.

(** After a failed embedding step the function returns the error text and an
    empty evidence. *)
Lemma run_hybrid_query_embed_failed (sv : Services) (q : string)
    (st st1 : State) (e : exn) :
  embed_query sv q st = (Raise e, st1) →
  run_hybrid_query sv q st
  = (Ok ("Embedding Error: " +:+ exn_str e, EmptyString), st1).
Proof.
  intros H. unfold run_hybrid_query, bind, try_except, ret.
  by rewrite H.
Qed.

(** After a successful embedding step the function runs the session block,
    closes the session, and, when the block gave the evidence lines, sends
    the prompt to the generative model. *)
Lemma run_hybrid_query_embedded (sv : Services) (q : string)
    (st st1 : State) (vec : Vec) :
  embed_query sv q st = (Ok vec, st1) →
  run_hybrid_query sv q st
  = let '(out, st2) := session_body sv q vec [] (log_event EvSessionOpen st1) in
    let st3 := log_event EvSessionClose st2 in
    match out with
    | Ok dump =>
        let full_context := join nl dump in
        let prompt := sys_prompt full_context q in
        let st4 := log_event (EvGenerateContent GENERATIVE_MODEL prompt) st3 in
        match generate_content sv (trace st3) GENERATIVE_MODEL prompt with
        | inl e => (Raise e, st4)
        | inr final => (Ok (text final, full_context), st4)
        end
    | Raise e => (Raise e, st3)
    | Stopped => (Stopped, st3)
    end.
Proof.
  intros H. unfold run_hybrid_query, bind, try_except, ret, with_session.
  rewrite H. simpl.
  destruct (session_body sv q vec [] (log_event EvSessionOpen st1))
    as [[dump|e|] st2]; try done.
  unfold call_generate_content.
  by destruct (generate_content sv _ _ _).
Qed.

(** What the session block does when it reaches its end. *)
Lemma session_body_Ok (sv : Services) (q : string) (vec : Vec)
    (st st' : State) (dump : list string) :
  session_body sv q vec [] st = (Ok dump, st') →
  let chunk_res := chunk_query (db_graph sv (trace st)) vec in
  let triple_res :=
    triple_query (db_graph sv (trace st ++ [EvRun ChunkQuery vec])) vec in
  ∃ lits,
    snippet_lines chunk_res = Ok lits
    ∧ dump = [LITERATURE_HEADER] ++ lits ++ [FACTS_HEADER] ++ fact_lines triple_res
    ∧ ∃ line,
        st' = mk_state (trace st ++ [EvRun ChunkQuery vec; EvRun TripleQuery vec;
                                     EvPrint line])
                       (history st) (clients st).
Proof.
  unfold session_body, bind, sess_run, lift, emit, ret. simpl.
  destruct (db_fault sv (trace st) ChunkQuery vec); [done |].
  destruct (literature_loop _ [LITERATURE_HEADER]) as [dump1| |] eqn:Hloop;
    try done.
  simpl.
  destruct (db_fault sv _ TripleQuery vec); [done |].
  destruct (facts_loop _ _ _) as [dump2 seen] eqn:Hfacts.
  intros [= <- <-].
  apply literature_loop_acc in Hloop as (lits & -> & Hlits).
  exists lits. split; [done |]. split.
  - apply (f_equal fst) in Hfacts. simpl in Hfacts.
    rewrite facts_loop_acc in Hfacts. rewrite <- Hfacts.
    unfold fact_lines. simpl. by rewrite <- ?app_assoc.
  - eexists. unfold log_event. simpl. rewrite <- ?app_assoc. reflexivity.
Qed.

(** A call that got its embedding and returned normally: the shape of the
    evidence, of the request to the generative model and of the new log. *)
Lemma run_hybrid_query_Ok (sv : Services) (q : string) (st st1 st' : State)
    (vec : Vec) (ans full_context : string) :
  embed_query sv q st = (Ok vec, st1) →
  run_hybrid_query sv q st = (Ok (ans, full_context), st') →
  ∃ lits facts line,
    evidence_sections sv q vec st full_context lits facts
    ∧ let before :=
        trace st ++ [EvEmbedContent EMBEDDING_MODEL q; EvSessionOpen;
                     EvRun ChunkQuery vec; EvRun TripleQuery vec;
                     EvPrint line; EvSessionClose] in
      let prompt := sys_prompt full_context q in
      (∃ final, generate_content sv before GENERATIVE_MODEL prompt = inr final
                ∧ ans = text final)
      ∧ st' = mk_state (before ++ [EvGenerateContent GENERATIVE_MODEL prompt])
                       (history st) (clients st).
Proof.
  intros Hemb Hrun.
  rewrite (run_hybrid_query_embedded _ _ _ _ _ Hemb) in Hrun.
  apply embed_query_state in Hemb as [-> _].
  destruct (session_body _ _ _ _ _) as [[dump|e|] st2] eqn:Hbody; try done.
  apply session_body_Ok in Hbody as (lits & Hlits & -> & line & ->).
  rewrite join_sections in Hrun.
  cbn [log_event trace history clients] in *.
  rewrite <- !app_assoc in *. cbn [app] in *.
  destruct (generate_content sv _ _ _) as [e|final] eqn:Hgen; [done |].
  injection Hrun as <- <- <-.
  exists lits, (fact_lines (triple_rows sv q vec st)), line.
  split; [by split |].
  cbn zeta. split; [eauto |].
  unfold log_event; cbn [trace history clients].
  f_equal. by rewrite <- !app_assoc.
Qed.

(** The literature loop ends normally when every record has a text. *)
Lemma literature_loop_total (chunk_res : list ChunkRecord) (dump : list string) :
  Forall (λ rec, is_Some (rec_text rec)) chunk_res →
  ∃ dump', literature_loop chunk_res dump = Ok dump'.
Proof.
  intros Hall. revert dump.
  induction Hall as [|rec rest [txt Htxt] _ IH]; intros dump; simpl.
  - eauto.
  - unfold snippet_line. rewrite Htxt. apply IH.
Qed.

(** A call returns normally once the embedding step has given a vector, the
    database answers both queries, every literature record has a text and
    the generative model answers. *)
Lemma run_hybrid_query_returns (sv : Services) (q : string) (st st1 : State)
    (vec : Vec) :
  embed_query sv q st = (Ok vec, st1) →
  (∀ tr qr, db_fault sv tr qr vec = None) →
  (∀ tr, Forall (λ rec, is_Some (rec_text rec))
                (chunk_query (db_graph sv tr) vec)) →
  (∀ tr prompt, ∃ final,
      generate_content sv tr GENERATIVE_MODEL prompt = inr final) →
  ∃ ans ctx st', run_hybrid_query sv q st = (Ok (ans, ctx), st').
Proof.
  intros Hemb Hdb Htext Hgen.
  rewrite (run_hybrid_query_embedded _ _ _ _ _ Hemb).
  unfold session_body, bind, sess_run, lift, emit, ret.
  rewrite Hdb.
  destruct (literature_loop_total _ ([] ++ [LITERATURE_HEADER])
              (Htext (trace (log_event EvSessionOpen st1)))) as [dump ->].
  rewrite Hdb.
  destruct (facts_loop _ _ _) as [dump2 seen].
  cbn zeta.
  match goal with
  | |- context [generate_content sv ?tr GENERATIVE_MODEL ?p] =>
      destruct (Hgen tr p) as [final ->]
  end.
  eauto.
Qed.

(** ** The evidence bundle *)

(** The entity query returns at most 15 rows, the literature query at most
    5. *)
Lemma triple_query_length (g : Graph) (vec : Vec) :
  length (triple_query g vec) ≤ 15.
Proof. unfold triple_query. rewrite length_take. lia. Qed.

Lemma chunk_query_length (g : Graph) (vec : Vec) :
  length (chunk_query g vec) ≤ 5.
Proof.
  unfold chunk_query, queryNodes. rewrite length_map, length_take. lia.
Qed.

(** Every row of the entity query comes from a relationship next to an
    entity that the index returned with a score above the threshold. *)
Lemma triple_query_origin (g : Graph) (vec : Vec) (row : TripleRecord) :
  row ∈ triple_query g vec →
  ∃ start sc r other,
    (start, sc) ∈ queryNodes g "entity_vectors" 5 vec
    ∧ above_threshold sc = true
    ∧ (r, other) ∈ one_hop g start
    ∧ row = mk_triple (node_name start) (rel_type r) (node_name other)
                      (rel_evidence r).
Proof.
  unfold triple_query, anchors, expand. intros Hrow.
  apply subseteq_take in Hrow.
  apply list_elem_of_In, in_flat_map in Hrow as ([start sc] & Hhit & Hexp).
  apply filter_In in Hhit as [Hhit Habove].
  apply list_elem_of_In, list_elem_of_fmap in Hexp as ([r other] & -> & Hm).
  exists start, sc, r, other. by rewrite list_elem_of_In.
Qed.

(** C1. For every query whose embedding succeeds and that returns, the facts
    section is built from at most 15 candidate rows; its lines are the first
    occurrences of the rows' composite strings "s -> rel -> t", so no two
    lines are equal and every row is represented; the composite string does
    not look at the row's evidence text. *)
Theorem facts_bounded_and_deduplicated (sv : Services) (q : string)
    (st st1 st' : State) (vec : Vec) (ans ctx : string) :
  embed_query sv q st = (Ok vec, st1) →
  run_hybrid_query sv q st = (Ok (ans, ctx), st') →
  let rows := triple_rows sv q vec st in
  ∃ lits facts,
    evidence_sections sv q vec st ctx lits facts
    ∧ length rows ≤ 15
    ∧ length facts ≤ length rows
    ∧ facts = fact_line <$> first_occurrences (triple_of <$> rows)
    ∧ NoDup facts
    ∧ (∀ row, row ∈ rows → fact_line (triple_of row) ∈ facts)
    ∧ (∀ r1 r2, row_s r1 = row_s r2 → row_rel r1 = row_rel r2 →
                row_t r1 = row_t r2 → triple_of r1 = triple_of r2).
Proof.
  intros Hemb Hrun rows.
  destruct (run_hybrid_query_Ok _ _ _ _ _ _ _ _ Hemb Hrun)
    as (lits & facts & line & Hsec & _).
  exists lits, facts. split; [done |].
  destruct Hsec as (_ & -> & _). fold rows.
  rewrite fact_lines_first_occurrences.
  repeat split.
  - apply triple_query_length.
  - rewrite length_fmap, <- (length_fmap triple_of rows).
    apply sublist_length, unseen_sublist.
  - apply NoDup_fmap_2; [apply _ | apply NoDup_unseen].
  - intros row Hrow. apply list_elem_of_fmap_2.
    apply elem_of_unseen. split; [by apply list_elem_of_fmap_2 | set_solver].
  - intros r1 r2 Hs Hrel Ht. unfold triple_of. by rewrite Hs, Hrel, Ht.
Qed.

Lemma facts_bounded_and_deduplicated_witness :
  ∃ lits,
    evidence_sections Demo.services Demo.question Demo.vec Demo.start
      Demo.evidence lits Demo.facts
    ∧ length (triple_rows Demo.services Demo.question Demo.vec Demo.start) = 3
    ∧ NoDup Demo.facts.
Proof.
  destruct (facts_bounded_and_deduplicated Demo.services Demo.question
              Demo.start Demo.embedded Demo.finished Demo.vec Demo.answer
              Demo.evidence)
    as (lits & facts & Hsec & _ & _ & Hfacts & Hnodup & _).
  - vm_compute. reflexivity.
  - vm_compute. reflexivity.
  - exists lits.
    assert (facts = Demo.facts) as -> by (rewrite Hfacts; vm_compute; reflexivity).
    split; [exact Hsec |]. split; [vm_compute; reflexivity | exact Hnodup].
Defined.

(** C2. For every query whose embedding succeeds and that returns, the
    literature section has at most 5 snippet lines, one per record of the
    literature query and in the same order (nothing is merged or dropped);
    each line is the bullet "- ", then the first 300 characters at most of
    the record's text, then the ellipsis "...". *)
Theorem literature_at_most_five_truncated_snippets (sv : Services)
    (q : string) (st st1 st' : State) (vec : Vec) (ans ctx : string) :
  embed_query sv q st = (Ok vec, st1) →
  run_hybrid_query sv q st = (Ok (ans, ctx), st') →
  let chunk_res := chunk_rows sv q vec st in
  ∃ lits facts,
    evidence_sections sv q vec st ctx lits facts
    ∧ length lits ≤ 5
    ∧ length lits = length chunk_res
    ∧ Forall2
        (λ rec line,
           ∃ txt rest,
             rec_text rec = Some txt
             ∧ line = "- " +:+ slice_to 300 txt +:+ "..."
             ∧ String.length (slice_to 300 txt) ≤ 300
             ∧ txt = slice_to 300 txt +:+ rest)
        chunk_res lits.
Proof.
  intros Hemb Hrun chunk_res.
  destruct (run_hybrid_query_Ok _ _ _ _ _ _ _ _ Hemb Hrun)
    as (lits & facts & line & Hsec & _).
  exists lits, facts. split; [done |].
  destruct Hsec as (Hlits & _ & _). fold chunk_res in Hlits.
  apply snippet_lines_Forall2 in Hlits.
  pose proof (Forall2_length _ _ _ Hlits) as Hlen.
  split; [| split; [done |]].
  - rewrite <- Hlen. apply chunk_query_length.
  - eapply Forall2_impl; [exact Hlits |].
    intros rec l Hl. unfold snippet_line in Hl.
    destruct (rec_text rec) as [txt|]; [| done].
    injection Hl as <-.
    destruct (slice_to_prefix 300 txt) as [rest Hrest].
    exists txt, rest. auto using slice_to_length.
Qed.

Lemma literature_at_most_five_truncated_snippets_witness :
  ∃ facts,
    evidence_sections Demo.services Demo.question Demo.vec Demo.start
      Demo.evidence Demo.snippets facts
    ∧ length Demo.snippets ≤ 5.
Proof.
  destruct (literature_at_most_five_truncated_snippets Demo.services
              Demo.question Demo.start Demo.embedded Demo.finished Demo.vec
              Demo.answer Demo.evidence)
    as (lits & facts & Hsec & Hfive & _ & _).
  - vm_compute. reflexivity.
  - vm_compute. reflexivity.
  - exists facts.
    assert (lits = Demo.snippets) as ->.
    { destruct Hsec as (Hlits & _). vm_compute in Hlits. by injection Hlits. }
    by split.
Defined.

(** C3. For every query whose embedding succeeds and that returns, every
    fact line comes from a relationship next to an entity that the index
    returned with a score strictly greater than 0.72, that is, not less than
    or equal to it; 0.72 itself does not pass. *)
Theorem facts_only_from_scores_above_threshold (sv : Services) (q : string)
    (st st1 st' : State) (vec : Vec) (ans ctx : string) :
  embed_query sv q st = (Ok vec, st1) →
  run_hybrid_query sv q st = (Ok (ans, ctx), st') →
  let g := db_graph sv (trace st ++ [EvEmbedContent EMBEDDING_MODEL q;
                                     EvSessionOpen; EvRun ChunkQuery vec]) in
  ∃ lits facts,
    evidence_sections sv q vec st ctx lits facts
    ∧ Forall
        (λ line,
           ∃ start sc r other,
             (start, sc) ∈ queryNodes g "entity_vectors" 5 vec
             ∧ SFltb threshold sc = true
             ∧ SFleb sc threshold = false
             ∧ (r, other) ∈ one_hop g start
             ∧ line = fact_line
                        (triple_of (mk_triple (node_name start) (rel_type r)
                                      (node_name other) (rel_evidence r))))
        facts
    ∧ above_threshold threshold = false.
Proof.
  intros Hemb Hrun g.
  destruct (run_hybrid_query_Ok _ _ _ _ _ _ _ _ Hemb Hrun)
    as (lits & facts & line & Hsec & _).
  exists lits, facts. split; [done |]. split; [| reflexivity].
  destruct Hsec as (_ & -> & _).
  rewrite fact_lines_first_occurrences. apply Forall_forall.
  intros l Hl.
  apply list_elem_of_fmap in Hl as (key & -> & Hkey).
  apply elem_of_unseen in Hkey as [Hkey _].
  apply list_elem_of_fmap in Hkey as (row & -> & Hrow).
  apply triple_query_origin in Hrow
    as (start & sc & r & other & Hhit & Habove & Hhop & ->).
  exists start, sc, r, other. repeat split; try done.
  destruct (SFleb sc threshold) eqn:Hle; [| done].
  apply not_above_threshold in Hle. congruence.
Qed.

Lemma facts_only_from_scores_above_threshold_witness :
  ∃ lits,
    evidence_sections Demo.services Demo.question Demo.vec Demo.start
      Demo.evidence lits Demo.facts
    ∧ (Demo.kras, threshold)
        ∈ queryNodes Demo.graph "entity_vectors" 5 Demo.vec
    ∧ (mk_rel "ACTIVATES" Demo.sos1 Demo.kras (Some "review"), Demo.sos1)
        ∈ one_hop Demo.graph Demo.kras
    ∧ fact_line "KRAS -> ACTIVATES -> SOS1" ∉ Demo.facts.
Proof.
  destruct (facts_only_from_scores_above_threshold Demo.services
              Demo.question Demo.start Demo.embedded Demo.finished Demo.vec
              Demo.answer Demo.evidence)
    as (lits & facts & Hsec & _ & _).
  - vm_compute. reflexivity.
  - vm_compute. reflexivity.
  - exists lits.
    assert (facts = Demo.facts) as ->.
    { destruct Hsec as (_ & -> & _). vm_compute. reflexivity. }
    split; [exact Hsec |].
    split; [| split].
    + apply list_elem_of_In. vm_compute. auto.
    + apply list_elem_of_In. vm_compute. auto.
    + rewrite list_elem_of_In. vm_compute. intros [H|[H|[]]]; discriminate.
Defined.

(** C4. For every query whose embedding succeeds and that returns, the
    evidence returned is the literature section, a line feed, then the facts
    section; each section starts with its own header line, also when it has
    no line of its own; and this same text is what the prompt sent to the
    generative model carries. *)
Theorem evidence_is_literature_then_facts (sv : Services) (q : string)
    (st st1 st' : State) (vec : Vec) (ans ctx : string) :
  embed_query sv q st = (Ok vec, st1) →
  run_hybrid_query sv q st = (Ok (ans, ctx), st') →
  ∃ lits facts,
    evidence_sections sv q vec st ctx lits facts
    ∧ ctx = literature_section lits +:+ nl +:+ facts_section facts
    ∧ literature_section lits = join nl (LITERATURE_HEADER :: lits)
    ∧ facts_section facts = join nl (FACTS_HEADER :: facts)
    ∧ (lits = [] → literature_section lits = LITERATURE_HEADER)
    ∧ (facts = [] → facts_section facts = FACTS_HEADER)
    ∧ last (trace st')
      = Some (EvGenerateContent GENERATIVE_MODEL (sys_prompt ctx q)).
Proof.
  intros Hemb Hrun.
  destruct (run_hybrid_query_Ok _ _ _ _ _ _ _ _ Hemb Hrun)
    as (lits & facts & line & Hsec & _ & ->).
  exists lits, facts. split; [done |].
  destruct Hsec as (_ & _ & Hctx).
  repeat split; try done.
  - by intros ->.
  - by intros ->.
  - cbn [trace]. by rewrite last_snoc.
Qed.

Lemma evidence_is_literature_then_facts_witness :
  evidence_sections Demo.empty_db Demo.question Demo.vec Demo.start
    Demo.bare_evidence [] []
  ∧ Demo.bare_evidence = LITERATURE_HEADER +:+ nl +:+ FACTS_HEADER.
Proof.
  destruct (evidence_is_literature_then_facts Demo.empty_db Demo.question
              Demo.start Demo.embedded Demo.bare_finished Demo.vec
              "I found no evidence." Demo.bare_evidence)
    as (lits & facts & Hsec & _).
  - vm_compute. reflexivity.
  - vm_compute. reflexivity.
  - assert (lits = []) as ->.
    { destruct Hsec as (Hlits & _). vm_compute in Hlits. by injection Hlits. }
    assert (facts = []) as ->.
    { destruct Hsec as (_ & -> & _). vm_compute. reflexivity. }
    split; [exact Hsec | vm_compute; reflexivity].
Defined.

(** ** Errors *)

(** The embedding step raises exactly when the service call raises or the
    vector cannot be taken out of the response. *)
Lemma embed_query_Raise (sv : Services) (q : string) (st : State) (e : exn) :
  (embed_content sv (trace st) EMBEDDING_MODEL q = inl e
   ∨ ∃ resp, embed_content sv (trace st) EMBEDDING_MODEL q = inr resp
             ∧ first_embedding_values resp = Raise e)
  ↔ embed_query sv q st
    = (Raise e, log_event (EvEmbedContent EMBEDDING_MODEL q) st).
Proof.
  unfold embed_query, bind, call_embed_content, lift.
  destruct (embed_content sv (trace st) EMBEDDING_MODEL q) as [e'|resp].
  - split.
    + intros [[= ->]|(resp & [=] & _)]. done.
    + intros [= ->]. by left.
  - split.
    + intros [[=]|(resp' & [= <-] & ->)]. done.
    + intros [= H]. right. eauto.
Qed.

(** C5. If the embedding-service call raises an exception, or taking the
    vector out of its response does, [run_hybrid_query] returns an answer
    that contains "Embedding Error" and an empty evidence; the only
    interaction of the call is the embedding request, so no database session
    is opened or used (and the generative model is not asked). *)
Theorem embedding_error_short_circuits (sv : Services) (q : string)
    (st : State) (e : exn) :
  (embed_content sv (trace st) EMBEDDING_MODEL q = inl e
   ∨ ∃ resp, embed_content sv (trace st) EMBEDDING_MODEL q = inr resp
             ∧ first_embedding_values resp = Raise e) →
  ∃ ans new,
    run_hybrid_query sv q st
    = (Ok (ans, EmptyString),
       mk_state (trace st ++ new) (history st) (clients st))
    ∧ ans = "Embedding Error: " +:+ exn_str e
    ∧ contains "Embedding Error" ans
    ∧ new = [EvEmbedContent EMBEDDING_MODEL q]
    ∧ Forall (λ ev, db_event ev = false ∧ generate_event ev = false) new.
Proof.
  intros Hfail. apply embed_query_Raise in Hfail.
  exists ("Embedding Error: " +:+ exn_str e), [EvEmbedContent EMBEDDING_MODEL q].
  split; [by rewrite (run_hybrid_query_embed_failed _ _ _ _ _ Hfail) |].
  split; [done |]. split; [| split; [done |]].
  - exists EmptyString, (": " +:+ exn_str e). reflexivity.
  - by repeat constructor.
Qed.

Lemma embedding_error_short_circuits_witness :
  run_hybrid_query Demo.embed_down Demo.question Demo.start
  = (Ok ("Embedding Error: 503 UNAVAILABLE", EmptyString), Demo.embedded).
Proof.
  destruct (embedding_error_short_circuits Demo.embed_down Demo.question
              Demo.start (mk_exn "ServerError" "503 UNAVAILABLE"))
    as (ans & new & Hrun & -> & _ & -> & _).
  - left. reflexivity.
  - exact Hrun.
Defined.

(** A record without text makes the literature loop raise. *)
Lemma literature_loop_null_text (chunk_res : list ChunkRecord)
    (dump : list string) :
  (∃ rec, rec ∈ chunk_res ∧ rec_text rec = None) →
  literature_loop chunk_res dump
  = Raise (TypeError "'NoneType' object is not subscriptable").
Proof.
  intros (rec & Hin & Hnone). revert dump.
  induction chunk_res as [|r rest IH]; intros dump; [by apply elem_of_nil in Hin |].
  simpl. unfold snippet_line.
  destruct (rec_text r) as [txt|] eqn:Hr; [| done].
  apply IH. apply elem_of_cons in Hin as [->|Hin]; [congruence | done].
Qed.

(** C8. An exception raised inside the database session leaves
    [run_hybrid_query] as that same exception, after the session is closed:
    when the database fails the literature query, when a record of its
    result has no text to slice, when the database fails the entity query,
    and in general however the session block raises. So does an exception
    raised by the generative-model call. A failure of the embedding step is
    the one that is turned into a normal return; hence an exception that
    leaves the function was raised in the session or by the generative
    model. *)
Theorem database_and_model_errors_propagate (sv : Services) (q : string)
    (st : State) :
  (∀ vec st1 e,
      embed_query sv q st = (Ok vec, st1) →
      db_fault sv (trace st ++ [EvEmbedContent EMBEDDING_MODEL q; EvSessionOpen])
        ChunkQuery vec = Some e →
      run_hybrid_query sv q st
      = (Raise e,
         mk_state (trace st ++ [EvEmbedContent EMBEDDING_MODEL q; EvSessionOpen;
                                EvRun ChunkQuery vec; EvSessionClose])
           (history st) (clients st)))
  ∧ (∀ vec st1,
      embed_query sv q st = (Ok vec, st1) →
      db_fault sv (trace st ++ [EvEmbedContent EMBEDDING_MODEL q; EvSessionOpen])
        ChunkQuery vec = None →
      (∃ rec, rec ∈ chunk_rows sv q vec st ∧ rec_text rec = None) →
      run_hybrid_query sv q st
      = (Raise (TypeError "'NoneType' object is not subscriptable"),
         mk_state (trace st ++ [EvEmbedContent EMBEDDING_MODEL q; EvSessionOpen;
                                EvRun ChunkQuery vec; EvSessionClose])
           (history st) (clients st)))
  ∧ (∀ vec st1 e,
      embed_query sv q st = (Ok vec, st1) →
      db_fault sv (trace st ++ [EvEmbedContent EMBEDDING_MODEL q; EvSessionOpen])
        ChunkQuery vec = None →
      Forall (λ rec, is_Some (rec_text rec)) (chunk_rows sv q vec st) →
      db_fault sv (trace st ++ [EvEmbedContent EMBEDDING_MODEL q; EvSessionOpen;
                                EvRun ChunkQuery vec])
        TripleQuery vec = Some e →
      run_hybrid_query sv q st
      = (Raise e,
         mk_state (trace st ++ [EvEmbedContent EMBEDDING_MODEL q; EvSessionOpen;
                                EvRun ChunkQuery vec; EvRun TripleQuery vec;
                                EvSessionClose])
           (history st) (clients st)))
  ∧ (∀ vec st1 e st2,
      embed_query sv q st = (Ok vec, st1) →
      session_body sv q vec [] (log_event EvSessionOpen st1) = (Raise e, st2) →
      run_hybrid_query sv q st = (Raise e, log_event EvSessionClose st2))
  ∧ (∀ vec st1 dump st2 e,
      embed_query sv q st = (Ok vec, st1) →
      session_body sv q vec [] (log_event EvSessionOpen st1) = (Ok dump, st2) →
      let st3 := log_event EvSessionClose st2 in
      let prompt := sys_prompt (join nl dump) q in
      generate_content sv (trace st3) GENERATIVE_MODEL prompt = inl e →
      run_hybrid_query sv q st
      = (Raise e, log_event (EvGenerateContent GENERATIVE_MODEL prompt) st3))
  ∧ (∀ e st1,
      embed_query sv q st = (Raise e, st1) →
      ∃ ans, run_hybrid_query sv q st = (Ok (ans, EmptyString), st1))
  ∧ (∀ e st',
      run_hybrid_query sv q st = (Raise e, st') →
      ∃ vec st1 out st2,
        embed_query sv q st = (Ok vec, st1)
        ∧ session_body sv q vec [] (log_event EvSessionOpen st1) = (out, st2)
        ∧ (out = Raise e
           ∨ ∃ dump, out = Ok dump
               ∧ generate_content sv (trace (log_event EvSessionClose st2))
                   GENERATIVE_MODEL (sys_prompt (join nl dump) q) = inl e)).
Proof.
  split; [| split; [| split; [| split; [| split; [| split]]]]].
  - intros vec st1 e Hemb Hdb.
    rewrite (run_hybrid_query_embedded _ _ _ _ _ Hemb).
    apply embed_query_state in Hemb as [-> _].
    unfold session_body, bind, sess_run, log_event.
    cbn [trace history clients]. rewrite <- !app_assoc.
    change ([EvEmbedContent EMBEDDING_MODEL q] ++ [EvSessionOpen])
      with [EvEmbedContent EMBEDDING_MODEL q; EvSessionOpen].
    rewrite Hdb. cbn [trace history clients]. by rewrite <- !app_assoc.
  - intros vec st1 Hemb Hdb Hnull.
    rewrite (run_hybrid_query_embedded _ _ _ _ _ Hemb).
    apply embed_query_state in Hemb as [-> _].
    unfold session_body, bind, sess_run, lift, log_event.
    cbn [trace history clients]. rewrite <- !app_assoc.
    change ([EvEmbedContent EMBEDDING_MODEL q] ++ [EvSessionOpen])
      with [EvEmbedContent EMBEDDING_MODEL q; EvSessionOpen].
    rewrite Hdb.
    rewrite literature_loop_null_text by exact Hnull.
    cbn [trace history clients]. by rewrite <- !app_assoc.
  - intros vec st1 e Hemb Hdb Htext Hdb2.
    rewrite (run_hybrid_query_embedded _ _ _ _ _ Hemb).
    apply embed_query_state in Hemb as [-> _].
    unfold session_body, bind, sess_run, lift, log_event.
    cbn [trace history clients]. rewrite <- !app_assoc.
    change ([EvEmbedContent EMBEDDING_MODEL q] ++ [EvSessionOpen])
      with [EvEmbedContent EMBEDDING_MODEL q; EvSessionOpen].
    rewrite Hdb.
    destruct (literature_loop_total _ ([] ++ [LITERATURE_HEADER]) Htext)
      as [dump Hdump].
    unfold chunk_rows in Hdump. rewrite Hdump.
    cbn [trace history clients]. rewrite <- !app_assoc.
    change ([EvEmbedContent EMBEDDING_MODEL q] ++ [EvSessionOpen]
            ++ [EvRun ChunkQuery vec])
      with [EvEmbedContent EMBEDDING_MODEL q; EvSessionOpen;
            EvRun ChunkQuery vec].
    rewrite Hdb2. cbn [trace history clients]. by rewrite <- ?app_assoc.
  - intros vec st1 e st2 Hemb Hbody.
    rewrite (run_hybrid_query_embedded _ _ _ _ _ Hemb). by rewrite Hbody.
  - intros vec st1 dump st2 e Hemb Hbody st3 prompt Hgen.
    rewrite (run_hybrid_query_embedded _ _ _ _ _ Hemb). rewrite Hbody.
    cbn zeta. fold st3 prompt. by rewrite Hgen.
  - intros e st1 Hemb. eexists.
    by rewrite (run_hybrid_query_embed_failed _ _ _ _ _ Hemb).
  - intros e st' Hrun.
    destruct (embed_query sv q st) as [[vec|e0|] st1] eqn:Hemb.
    + rewrite (run_hybrid_query_embedded _ _ _ _ _ Hemb) in Hrun.
      destruct (session_body _ _ _ _ _) as [out st2] eqn:Hbody.
      exists vec, st1, out, st2. repeat split; try done.
      destruct out as [dump|e1|]; [| left; congruence | done].
      right. exists dump. split; [done |]. cbn zeta in Hrun.
      destruct (generate_content sv _ _ _); congruence.
    + by rewrite (run_hybrid_query_embed_failed _ _ _ _ _ Hemb) in Hrun.
    + by apply embed_query_state in Hemb as [_ ?].
Qed.

Lemma database_and_model_errors_propagate_witness :
  run_hybrid_query Demo.db_down Demo.question Demo.start
  = (Raise (mk_exn "ServiceUnavailable" "connection lost"),
     mk_state [EvEmbedContent EMBEDDING_MODEL Demo.question; EvSessionOpen;
               EvRun ChunkQuery Demo.vec; EvRun TripleQuery Demo.vec;
               EvSessionClose] None None)
  ∧ (∃ st', run_hybrid_query Demo.model_down Demo.question Demo.start
            = (Raise (mk_exn "ClientError" "429 RESOURCE_EXHAUSTED"), st')).
Proof.
  split.
  - destruct (database_and_model_errors_propagate Demo.db_down Demo.question
                Demo.start) as (_ & _ & Hdb & _).
    apply (Hdb Demo.vec Demo.embedded).
    + vm_compute. reflexivity.
    + reflexivity.
    + unfold chunk_rows. vm_compute. repeat constructor; eexists; reflexivity.
    + reflexivity.
  - destruct (database_and_model_errors_propagate Demo.model_down
                Demo.question Demo.start) as (_ & _ & _ & _ & Hmodel & _).
    eexists.
    eapply (Hmodel Demo.vec Demo.embedded
              ([ "=== LITERATURE SNIPPETS ===" ] ++ Demo.snippets
               ++ [ FACTS_HEADER ] ++ Demo.facts)).
    + vm_compute. reflexivity.
    + vm_compute. reflexivity.
    + vm_compute. reflexivity.
Defined.

(** ** What a call depends on *)

Ltac unfold_run :=
  unfold run_hybrid_query, embed_query, with_session, session_body, bind,
    try_except, call_embed_content, call_generate_content, sess_run, lift,
    emit, ret, log_event;
  cbn [trace history clients fst snd].

(** The call reads and writes the log only: the session state (the chat
    history) and the resource cache pass through untouched and unread. *)
Lemma run_hybrid_query_frame (sv : Services) (q : string) (tr : list Event)
    (h : option (list ChatMessage)) (c : option Credentials) :
  run_hybrid_query sv q (mk_state tr h c)
  = let '(out, st') := run_hybrid_query sv q (mk_state tr None None) in
    (out, mk_state (trace st') h c).
Proof.
  unfold_run.
  destruct (embed_content sv tr EMBEDDING_MODEL q) as [e|resp]; [done |].
  destruct (first_embedding_values resp) as [vec|e|]; try done.
  cbn [trace history clients].
  destruct (db_fault sv _ ChunkQuery vec); [done |].
  destruct (literature_loop _ _) as [dump| |]; try done.
  cbn [trace history clients].
  destruct (db_fault sv _ TripleQuery vec); [done |].
  destruct (facts_loop _ _ _) as [dump2 seen].
  cbn [trace history clients].
  by destruct (generate_content sv _ _ _).
Qed.










(** ** The synthesizer *)

(** C7. In a call whose embedding succeeds and that returns, exactly one
    request goes to the generative model; its prompt is the fixed text
    around the evidence and the question (the head holds the persona
    directive); the answer returned is the [text] of the model's response to
    that request, as it is; and the call neither reads nor changes the chat
    history of the session: with any other history it makes the same request
    and returns the same pair. *)
Theorem synthesizer_one_request_without_history (sv : Services) (q : string)
    (st st1 st' : State) (vec : Vec) (ans ctx : string) :
  embed_query sv q st = (Ok vec, st1) →
  run_hybrid_query sv q st = (Ok (ans, ctx), st') →
  ∃ before final,
    trace st' = before ++ [EvGenerateContent GENERATIVE_MODEL (sys_prompt ctx q)]
    ∧ (∃ earlier, before = trace st ++ earlier
                  ∧ Forall (λ ev, generate_event ev = false) earlier)
    ∧ sys_prompt ctx q
      = PROMPT_HEAD +:+ ctx +:+ PROMPT_MIDDLE +:+ q +:+ PROMPT_TAIL
    ∧ contains "You are ARC (Analysis for Research Collaboration)." PROMPT_HEAD
    ∧ generate_content sv before GENERATIVE_MODEL (sys_prompt ctx q) = inr final
    ∧ ans = text final
    ∧ ∀ h c,
        run_hybrid_query sv q (mk_state (trace st) h c)
        = (Ok (ans, ctx), mk_state (trace st') h c).
Proof.
  intros Hemb Hrun.
  destruct (run_hybrid_query_Ok _ _ _ _ _ _ _ _ Hemb Hrun)
    as (lits & facts & line & _ & (final & Hgen & ->) & Hst').
  eexists _, final. split; [by rewrite Hst' |].
  split; [eexists; split; [reflexivity | by repeat constructor] |].
  split; [done |]. split.
  { exists (nl +:+ "    "),
      (" " +:+ nl +:+ "    Answer the user's question based strictly on the provided evidence."
       +:+ nl +:+ "    " +:+ nl +:+ "    EVIDENCE:" +:+ nl +:+ "    ").
    reflexivity. }
  split; [exact Hgen |]. split; [done |].
  intros h c. rewrite run_hybrid_query_frame.
  pose proof (run_hybrid_query_frame sv q (trace st) (history st) (clients st))
    as Hframe.
  destruct st as [tr h0 c0]. cbn [trace history clients] in *.
  rewrite Hrun in Hframe.
  destruct (run_hybrid_query sv q (mk_state tr None None)) as [out0 st0].
  injection Hframe as Hout Hst.
  by rewrite <- Hout, Hst.
Qed.

Lemma synthesizer_one_request_without_history_witness :
  run_hybrid_query Demo.services Demo.question
    (mk_state [] (Some [mk_message user "Hello"; mk_message assistant "Hi"])
       None)
  = (Ok (Demo.answer, Demo.evidence),
     mk_state (trace Demo.finished)
       (Some [mk_message user "Hello"; mk_message assistant "Hi"]) None).
Proof.
  destruct (synthesizer_one_request_without_history Demo.services
              Demo.question Demo.start Demo.embedded Demo.finished Demo.vec
              Demo.answer Demo.evidence)
    as (before & final & _ & _ & _ & _ & _ & _ & Hany).
  - vm_compute. reflexivity.
  - vm_compute. reflexivity.
  - apply (Hany (Some [mk_message user "Hello"; mk_message assistant "Hi"]) None).
Defined.

(** ** Credentials *)





(** A value that neither the environment nor the store has stays unknown to
    [os.getenv], whatever has been copied. *)
Lemma missing_stays_false (sv : Services) (name : string) (tr : list Event) :
  missing sv name → truthy (process_env sv tr !! name) = false.
Proof.
  intros [Henv Hsec]. unfold process_env.
  destruct (secrets_loaded sv tr); [| done].
  by rewrite lookup_union_r.
Qed.

(** [os.getenv(name) or st.secrets[name]], step by step. *)
Lemma getenv_or_secret_steps (sv : Services) (name : string) (st : State) :
  getenv_or_secret sv name st
  = if truthy (process_env sv (trace st) !! name)
    then (Ok (default EmptyString (process_env sv (trace st) !! name)),
          log_event (EvGetenv name) st)
    else secret sv name (log_event (EvGetenv name) st).
Proof.
  unfold getenv_or_secret, getenv, bind, ret.
  destruct (process_env sv (trace st) !! name) as [v|]; [| done].
  cbn [truthy]. by destruct (negb (String.eqb v EmptyString)).
Qed.

(** With a secrets file, a look-up gives a value or a [KeyError]. *)
Lemma getenv_or_secret_resolved (sv : Services) (store : gmap string string)
    (name : string) (st : State) :
  secrets_toml sv = Some store →
  getenv_or_secret sv name st
  = (match resolved sv (trace st) name with
     | Some v => Ok v
     | None => Raise (KeyError name)
     end,
     mk_state (trace st ++ lookups sv (trace st) name) (history st) (clients st)).
Proof.
  intros Hstore. rewrite getenv_or_secret_steps. unfold resolved, lookups.
  destruct (truthy (process_env sv (trace st) !! name)) eqn:Htruthy.
  - destruct (process_env sv (trace st) !! name); [done | discriminate].
  - unfold secret, bind, emit, ret, raise, log_event, secrets.
    rewrite Hstore. cbn [trace history clients default from_option id].
    rewrite <- app_assoc. by destruct (store !! name).
Qed.

(** Without one, it gives the variable's value or the store's exception. *)
Lemma getenv_or_secret_no_store (sv : Services) (name : string) (st : State) :
  secrets_toml sv = None →
  getenv_or_secret sv name st
  = if truthy (environ sv !! name)
    then (Ok (default EmptyString (environ sv !! name)),
          log_event (EvGetenv name) st)
    else (Raise StreamlitSecretNotFoundError,
          mk_state (trace st ++ [EvGetenv name; EvSecret name])
            (history st) (clients st)).
Proof.
  intros Hnone. rewrite getenv_or_secret_steps.
  unfold process_env, secrets_loaded. rewrite Hnone.
  destruct (truthy (environ sv !! name)); [done |].
  unfold secret, bind, emit, raise, log_event. rewrite Hnone.
  cbn [trace history clients]. by rewrite <- app_assoc.
Qed.

(** The block at the top of the module when a secrets file exists: the four
    values in order, each look-up seeing what the earlier ones left, or the
    error message and the stop at the first one that cannot be resolved. *)
Lemma load_credentials_steps (sv : Services) (store : gmap string string)
    (st : State) :
  secrets_toml sv = Some store →
  let halt new :=
    (@Stopped Credentials,
     mk_state (trace st ++ new ++ [EvSt "error" MISSING_SECRETS;
                                   EvSt "stop" EmptyString])
              (history st) (clients st)) in
  let l1 := lookups sv (trace st) "GOOGLE_API_KEY" in
  let l2 := l1 ++ lookups sv (trace st ++ l1) "NEO4J_URI" in
  let l3 := l2 ++ lookups sv (trace st ++ l2) "NEO4J_USER" in
  let l4 := l3 ++ lookups sv (trace st ++ l3) "NEO4J_PASSWORD" in
  load_credentials sv st
  = match resolved sv (trace st) "GOOGLE_API_KEY" with
    | None => halt l1
    | Some k =>
        match resolved sv (trace st ++ l1) "NEO4J_URI" with
        | None => halt l2
        | Some uri =>
            match resolved sv (trace st ++ l2) "NEO4J_USER" with
            | None => halt l3
            | Some usr =>
                match resolved sv (trace st ++ l3) "NEO4J_PASSWORD" with
                | None => halt l4
                | Some pw =>
                    (Ok (mk_credentials k uri (usr, pw)),
                     mk_state (trace st ++ l4) (history st) (clients st))
                end
            end
        end
    end.
Proof.
  intros Hstore.
  unfold load_credentials, try_except_class, bind, st_stop, emit, ret, log_event.
  cbv beta zeta.
  rewrite (getenv_or_secret_resolved _ _ _ _ Hstore).
  cbn [trace history clients].
  destruct (resolved sv (trace st) "GOOGLE_API_KEY") as [k|];
    [| cbn; by rewrite <- !app_assoc].
  rewrite (getenv_or_secret_resolved _ _ _ _ Hstore).
  cbn [trace history clients].
  destruct (resolved sv _ "NEO4J_URI") as [uri|];
    [| cbn; by rewrite <- !app_assoc].
  rewrite (getenv_or_secret_resolved _ _ _ _ Hstore).
  cbn [trace history clients]. rewrite <- !app_assoc.
  destruct (resolved sv _ "NEO4J_USER") as [usr|];
    [| cbn; by rewrite <- !app_assoc].
  rewrite (getenv_or_secret_resolved _ _ _ _ Hstore).
  cbn [trace history clients]. rewrite <- !app_assoc.
  destruct (resolved sv _ "NEO4J_PASSWORD") as [pw|];
    [| cbn; by rewrite <- !app_assoc].
  done.
Qed.

Lemma lookups_startup (sv : Services) (tr : list Event) (name : string) :
  Forall (λ ev, startup_event ev = true) (lookups sv tr name).
Proof. unfold lookups. destruct (truthy _); by repeat constructor. Qed.

Lemma missing_not_resolved (sv : Services) (tr : list Event) (name : string) :
  missing sv name → resolved sv tr name = None.
Proof.
  intros Hmiss. unfold resolved.
  rewrite (missing_stays_false _ _ _ Hmiss). by destruct Hmiss.
Qed.

(** With a secrets file and a credential missing, the block stops the script
    after the error message, having made look-ups only. *)
Lemma load_credentials_missing (sv : Services) (store : gmap string string)
    (name : string) (st : State) :
  secrets_toml sv = Some store →
  name ∈ CREDENTIAL_NAMES → missing sv name →
  ∃ new,
    load_credentials sv st
    = (Stopped,
       mk_state (trace st ++ new ++ [EvSt "error" MISSING_SECRETS;
                                     EvSt "stop" EmptyString])
                (history st) (clients st))
    ∧ Forall (λ ev, startup_event ev = true) new.
Proof.
  intros Hstore Hname Hmiss.
  rewrite (load_credentials_steps _ _ _ Hstore). cbv zeta.
  pose proof (lookups_startup sv) as Hl.
  pose proof (λ tr, missing_not_resolved sv tr name Hmiss) as Hnone.
  destruct (resolved sv _ "GOOGLE_API_KEY") as [k|] eqn:H1;
    [| eexists; split; [reflexivity | by rewrite ?Forall_app]].
  destruct (resolved sv _ "NEO4J_URI") as [uri|] eqn:H2;
    [| eexists; split; [reflexivity | by rewrite ?Forall_app]].
  destruct (resolved sv _ "NEO4J_USER") as [usr|] eqn:H3;
    [| eexists; split; [reflexivity | by rewrite ?Forall_app]].
  destruct (resolved sv _ "NEO4J_PASSWORD") as [pw|] eqn:H4;
    [| eexists; split; [reflexivity | by rewrite ?Forall_app]].
  exfalso. unfold CREDENTIAL_NAMES in Hname.
  repeat (apply elem_of_cons in Hname as [->|Hname]; [congruence |]).
  by apply elem_of_nil in Hname.
Qed.


(** Without a secrets file, the first credential that the environment does
    not give ends the block with the store's exception, which the handler
    for [KeyError] lets through. *)
Lemma load_credentials_no_store (sv : Services) (name : string) (st : State) :
  secrets_toml sv = None →
  name ∈ CREDENTIAL_NAMES → truthy (environ sv !! name) = false →
  ∃ new,
    load_credentials sv st
    = (Raise StreamlitSecretNotFoundError,
       mk_state (trace st ++ new) (history st) (clients st))
    ∧ Forall (λ ev, startup_event ev = true) new.
Proof.
  intros Hnone Hname Hfalse.
  unfold load_credentials, try_except_class, bind, ret.
  rewrite (getenv_or_secret_no_store _ _ _ Hnone).
  destruct (truthy (environ sv !! "GOOGLE_API_KEY")) eqn:H1.
  2: { eexists. split; [reflexivity | by repeat constructor]. }
  rewrite (getenv_or_secret_no_store _ _ _ Hnone).
  destruct (truthy (environ sv !! "NEO4J_URI")) eqn:H2.
  2: { eexists. unfold log_event. cbn [trace history clients].
       rewrite <- app_assoc. split; [reflexivity | by repeat constructor]. }
  rewrite (getenv_or_secret_no_store _ _ _ Hnone).
  destruct (truthy (environ sv !! "NEO4J_USER")) eqn:H3.
  2: { eexists. unfold log_event. cbn [trace history clients].
       rewrite <- !app_assoc. split; [reflexivity | by repeat constructor]. }
  rewrite (getenv_or_secret_no_store _ _ _ Hnone).
  destruct (truthy (environ sv !! "NEO4J_PASSWORD")) eqn:H4.
  2: { eexists. unfold log_event. cbn [trace history clients].
       rewrite <- !app_assoc. split; [reflexivity | by repeat constructor]. }
  exfalso. unfold CREDENTIAL_NAMES in Hname.
  repeat (apply elem_of_cons in Hname as [->|Hname]; [congruence |]).
  by apply elem_of_nil in Hname.
Qed.

(** With a secrets file and a credential missing, a run of the script stops
    after the error message, having done nothing but the page configuration
    and look-ups. *)
Lemma app_stops_when_missing (sv : Services) (store : gmap string string)
    (name : string) (user_in : option string) (st : State) :
  secrets_toml sv = Some store →
  name ∈ CREDENTIAL_NAMES → missing sv name →
  ∃ new,
    app sv user_in st
    = (Stopped,
       mk_state (trace st ++ new ++ [EvSt "error" MISSING_SECRETS;
                                     EvSt "stop" EmptyString])
                (history st) (clients st))
    ∧ Forall (λ ev, startup_event ev = true) new.
Proof.
  intros Hstore Hname Hmiss.
  destruct (load_credentials_missing sv store name
              (log_event (EvSt "set_page_config" "ARC: Cancer Research Assistant") st)
              Hstore Hname Hmiss)
    as (new & Hload & Hnew).
  exists (EvSt "set_page_config" "ARC: Cancer Research Assistant" :: new).
  split; [| by constructor].
  unfold app, bind at 1 2, emit. rewrite Hload.
  cbn [log_event trace history clients]. by rewrite <- app_assoc.
Qed.

(** Without a secrets file and with a credential that the environment does
    not give, a run of the script ends with the store's exception: the error
    message is not shown and the script is not stopped by [st.stop]. *)
Lemma app_raises_without_store (sv : Services) (name : string)
    (user_in : option string) (st : State) :
  secrets_toml sv = None →
  name ∈ CREDENTIAL_NAMES → truthy (environ sv !! name) = false →
  ∃ new,
    app sv user_in st
    = (Raise StreamlitSecretNotFoundError,
       mk_state (trace st ++ new) (history st) (clients st))
    ∧ Forall (λ ev, startup_event ev = true) new.
Proof.
  intros Hnone Hname Hfalse.
  destruct (load_credentials_no_store sv name
              (log_event (EvSt "set_page_config" "ARC: Cancer Research Assistant") st)
              Hnone Hname Hfalse)
    as (new & Hload & Hnew).
  exists (EvSt "set_page_config" "ARC: Cancer Research Assistant" :: new).
  split; [| by constructor].
  unfold app, bind at 1 2, emit. rewrite Hload.
  cbn [log_event trace history clients]. by rewrite <- app_assoc.
Qed.




(** C10. An environment variable that [os.getenv] gives as the empty string
    counts as unset: the value is then looked up in the secret store, with
    the same result and the same look-ups as if the variable did not exist.
    And an empty variable never stands for a credential: when the store has
    no value for one of the four names, no run of the script gets past the
    credentials; it stops after the error message when a secrets file
    exists, and ends with the store's exception when there is none. *)
Theorem empty_environment_value_counts_as_unset (sv : Services)
    (name : string) :
  (∀ st,
      process_env sv (trace st) !! name = Some EmptyString →
      getenv_or_secret sv name st
      = secret sv name (log_event (EvGetenv name) st)
      ∧ getenv_or_secret sv name st
        = getenv_or_secret (unset_env name sv) name st)
  ∧ (environ sv !! name = Some EmptyString →
     name ∈ CREDENTIAL_NAMES → secrets sv !! name = None →
     ∀ user_in st,
       (app sv user_in st).1
       = match secrets_toml sv with
         | Some _ => Stopped
         | None => Raise StreamlitSecretNotFoundError
         end).
Proof.
  split.
  - intros st Hempty. split.
    + rewrite getenv_or_secret_steps. by rewrite Hempty.
    + rewrite !getenv_or_secret_steps. rewrite Hempty. cbn [truthy].
      assert (truthy (process_env (unset_env name sv) (trace st) !! name)
              = false) as ->.
      { revert Hempty. unfold process_env, secrets_loaded, secrets, unset_env.
        cbn [environ secrets_toml].
        destruct (secrets_toml sv) as [store|]; cbn [default from_option id].
        - destruct (existsb secret_event (trace st)).
          + destruct (store !! name) as [v|] eqn:Hv.
            * rewrite !(lookup_union_Some_l _ _ _ _ Hv). by intros [= ->].
            * intros _. by rewrite lookup_union_r, lookup_delete_eq.
          + by rewrite lookup_delete_eq.
        - by rewrite lookup_delete_eq. }
      reflexivity.
  - intros Hempty Hname Hsec user_in st.
    destruct (secrets_toml sv) as [store|] eqn:Hstore.
    + destruct (app_stops_when_missing sv store name user_in st Hstore Hname)
        as (new & -> & _); [| done].
      split; [by rewrite Hempty | done].
    + destruct (app_raises_without_store sv name user_in st Hstore Hname)
        as (new & -> & _); [| done].
      by rewrite Hempty.
Qed.

Lemma empty_environment_value_counts_as_unset_witness :
  getenv_or_secret Demo.no_password "NEO4J_USER" Demo.start
  = (Ok "neo4j",
     mk_state [EvGetenv "NEO4J_USER"; EvSecret "NEO4J_USER"] None None).
Proof.
  destruct (empty_environment_value_counts_as_unset Demo.no_password
              "NEO4J_USER") as (Hempty & _).
  destruct (Hempty Demo.start) as (Hsecret & _).
  - vm_compute. reflexivity.
  - rewrite Hsecret. vm_compute. reflexivity.
Defined.

(** * Further properties of the script *)

(** ** Deduplication of facts *)

(** [unseen] looks at what has been seen only through membership. *)
Lemma unseen_ext (keys s1 s2 : list string) :
  (∀ k, k ∈ s1 ↔ k ∈ s2) → unseen keys s1 = unseen keys s2.
Proof.
  revert s1 s2. induction keys as [|k keys IH]; intros s1 s2 Hs; simpl; [done |].
  destruct (decide (k ∈ s1)) as [H1|H1], (decide (k ∈ s2)) as [H2|H2];
    try (exfalso; naive_solver).
  - by apply IH.
  - f_equal. apply IH. intros k'. rewrite !elem_of_cons. naive_solver.
Qed.

Lemma unseen_app (a b seen : list string) :
  unseen (a ++ b) seen = unseen a seen ++ unseen b (a ++ seen).
Proof.
  revert seen. induction a as [|k a IH]; intros seen; simpl; [done |].
  destruct (decide (k ∈ seen)) as [Hin|Hout].
  - rewrite IH. f_equal. apply unseen_ext. set_solver.
  - rewrite IH. simpl. do 2 f_equal. apply unseen_ext. set_solver.
Qed.

Lemma unseen_NoDup_id (keys seen : list string) :
  NoDup keys → (∀ k, k ∈ keys → k ∉ seen) → unseen keys seen = keys.
Proof.
  revert seen. induction keys as [|k keys IH]; intros seen Hnd Hdisj; simpl;
    [done |].
  apply NoDup_cons in Hnd as [Hk Hnd].
  destruct (decide (k ∈ seen)) as [Hin|_]; [exfalso; set_solver |].
  f_equal. apply IH; [done |]. set_solver.
Qed.

(** A row whose composite string has occurred earlier in the result changes
    nothing: the fact lines are those of the result without that row. *)
Theorem repeated_row_changes_nothing (before after : list TripleRecord)
    (row : TripleRecord) :
  triple_of row ∈ (triple_of <$> before) →
  fact_lines (before ++ row :: after) = fact_lines (before ++ after).
Proof.
  intros Hin. rewrite !fact_lines_first_occurrences. f_equal.
  unfold first_occurrences. rewrite !fmap_app, fmap_cons, !unseen_app.
  f_equal. simpl.
  destruct (decide (triple_of row ∈ (triple_of <$> before) ++ [])) as [_|Hout];
    [done |].
  exfalso. apply Hout. set_solver.
Qed.

Lemma repeated_row_changes_nothing_witness :
  fact_lines [mk_triple (Some "EGFR") "INHIBITS" (Some "Gefitinib") (Some "trial A");
              mk_triple (Some "EGFR") "INHIBITS" (Some "Gefitinib") (Some "trial B");
              mk_triple (Some "EGFR") "INHIBITS" (Some "Erlotinib") None]
  = fact_lines [mk_triple (Some "EGFR") "INHIBITS" (Some "Gefitinib") (Some "trial A");
                mk_triple (Some "EGFR") "INHIBITS" (Some "Erlotinib") None].
Proof.
  apply (repeated_row_changes_nothing
           [mk_triple (Some "EGFR") "INHIBITS" (Some "Gefitinib") (Some "trial A")]).
  apply list_elem_of_In. vm_compute. auto.
Defined.

(** When the composite strings of the rows are pairwise different, every row
    gets its fact line, in the order of the rows: deduplication drops
    repetitions only. *)
Theorem distinct_rows_all_become_facts (triple_res : list TripleRecord) :
  NoDup (triple_of <$> triple_res) →
  fact_lines triple_res = (λ row, fact_line (triple_of row)) <$> triple_res
  ∧ length (fact_lines triple_res) = length triple_res.
Proof.
  intros Hnd. rewrite fact_lines_first_occurrences.
  unfold first_occurrences. rewrite unseen_NoDup_id; [| done | set_solver].
  rewrite <- list_fmap_compose. split; [done |]. by rewrite length_fmap.
Qed.

Lemma distinct_rows_all_become_facts_witness :
  fact_lines [mk_triple (Some "EGFR") "INHIBITS" (Some "Gefitinib") None;
              mk_triple None "BINDS" (Some "EGFR") None]
  = ["FACT: EGFR -> INHIBITS -> Gefitinib"; "FACT: None -> BINDS -> EGFR"].
Proof.
  destruct (distinct_rows_all_become_facts
              [mk_triple (Some "EGFR") "INHIBITS" (Some "Gefitinib") None;
               mk_triple None "BINDS" (Some "EGFR") None]) as [-> _].
  - apply (bool_decide_unpack _). vm_compute. exact I.
  - reflexivity.
Defined.

(** The set of seen triples grows by one with every fact line written. *)
Lemma facts_loop_seen_size (triple_res : list TripleRecord)
    (dump : list string) (seen : gset string) :
  size (facts_loop triple_res dump seen).2
  = size seen + length (facts_loop triple_res [] seen).1.
Proof.
  revert dump seen. induction triple_res as [|row rest IH]; intros dump seen;
    simpl; [lia |].
  destruct (decide (triple_of row ∈ seen)) as [Hin|Hout]; [apply IH |].
  rewrite IH, (facts_loop_acc rest [_]), length_app.
  rewrite size_union by set_solver. rewrite size_singleton. simpl. lia.
Qed.

(** ** Size of the literature section *)

Lemma length_append (a b : string) :
  String.length (a +:+ b) = String.length a + String.length b.
Proof.
  induction a as [|ch a IH]; [done |].
  rewrite append_cons. simpl. by rewrite IH.
Qed.

Lemma slice_to_full (n : nat) (txt : string) :
  n ≤ String.length txt → String.length (slice_to n txt) = n.
Proof.
  revert txt; induction n as [|n IH]; intros [|ch txt]; simpl; try done; try lia.
  intros H. rewrite IH; [done | lia].
Qed.

Lemma length_bullet_ellipsis (cut : string) :
  String.length ("- " +:+ cut +:+ "...") = String.length cut + 5.
Proof. rewrite !length_append. simpl. lia. Qed.

(** A snippet line has at most 305 characters. A text of up to 300
    characters is shown whole and still gets the ellipsis; a longer one is
    cut to exactly 300. *)
Theorem snippet_line_size (rec : ChunkRecord) (line txt : string) :
  rec_text rec = Some txt →
  snippet_line rec = Ok line →
  String.length line ≤ 305
  ∧ (String.length txt ≤ 300 → line = "- " +:+ txt +:+ "...")
  ∧ (300 ≤ String.length txt → String.length line = 305).
Proof.
  intros Htxt Hline. unfold snippet_line in Hline. rewrite Htxt in Hline.
  assert (line = "- " +:+ slice_to 300 txt +:+ "...") as -> by congruence.
  rewrite length_bullet_ellipsis.
  pose proof (slice_to_length 300 txt).
  split; [lia |]. split.
  - intros Hshort. by rewrite slice_to_short.
  - intros Hlong. rewrite slice_to_full; [done | lia].
Qed.

Lemma snippet_line_size_witness :
  snippet_line (mk_chunk (Some "EGFR") Demo.sc_090) = Ok "- EGFR...".
Proof.
  destruct (snippet_line (mk_chunk (Some "EGFR") Demo.sc_090)) as [line| |] eqn:H;
    try discriminate.
  destruct (snippet_line_size (mk_chunk (Some "EGFR") Demo.sc_090) line "EGFR")
    as (_ & Hshort & _); [reflexivity | exact H |].
  rewrite Hshort; [reflexivity | vm_compute; lia].
Defined.

Lemma join_length_bound (sep head : string) (lines : list string) (m : nat) :
  Forall (λ l, String.length l ≤ m) lines →
  String.length (join sep (head :: lines))
  ≤ String.length head + length lines * (String.length sep + m).
Proof.
  intros Hall. revert head.
  induction Hall as [|l lines Hl _ IH]; intros head.
  - simpl. lia.
  - rewrite join_cons by done. rewrite !length_append.
    specialize (IH l). rewrite length_cons. nia.
Qed.

(** In a call that returns with its evidence, the literature section has at
    most 1557 characters: the header, and five times a line feed and a line
    of 305. *)
Theorem literature_section_size (sv : Services) (q : string)
    (st st1 st' : State) (vec : Vec) (ans ctx : string) :
  embed_query sv q st = (Ok vec, st1) →
  run_hybrid_query sv q st = (Ok (ans, ctx), st') →
  ∃ lits facts,
    evidence_sections sv q vec st ctx lits facts
    ∧ String.length (literature_section lits) ≤ 1557.
Proof.
  intros Hemb Hrun.
  destruct (run_hybrid_query_Ok _ _ _ _ _ _ _ _ Hemb Hrun)
    as (lits & facts & line & Hsec & _).
  exists lits, facts. split; [done |].
  destruct Hsec as (Hlits & _ & _).
  apply snippet_lines_Forall2 in Hlits.
  pose proof (Forall2_length _ _ _ Hlits) as Hlen.
  pose proof (chunk_query_length
                (db_graph sv (trace st ++ [EvEmbedContent EMBEDDING_MODEL q;
                                           EvSessionOpen])) vec) as Hfive.
  fold (chunk_rows sv q vec st) in Hfive.
  assert (Forall (λ l, String.length l ≤ 305) lits) as Hall.
  { eapply Forall2_Forall_r; [exact Hlits |].
    apply Forall_forall. intros rec _ l Hl. unfold snippet_line in Hl.
    destruct (rec_text rec) as [txt|]; [| done].
    assert (l = "- " +:+ slice_to 300 txt +:+ "...") as -> by congruence.
    rewrite length_bullet_ellipsis. pose proof (slice_to_length 300 txt).
    lia. }
  unfold literature_section.
  pose proof (join_length_bound nl LITERATURE_HEADER lits 305 Hall) as Hb.
  change (String.length LITERATURE_HEADER) with 27 in Hb.
  change (String.length nl) with 1 in Hb. nia.
Qed.

Lemma literature_section_size_witness :
  ∃ facts,
    evidence_sections Demo.services Demo.question Demo.vec Demo.start
      Demo.evidence Demo.snippets facts
    ∧ String.length (literature_section Demo.snippets) ≤ 1557.
Proof.
  destruct (literature_section_size Demo.services Demo.question Demo.start
              Demo.embedded Demo.finished Demo.vec Demo.answer Demo.evidence)
    as (lits & facts & Hsec & Hsize).
  - vm_compute. reflexivity.
  - vm_compute. reflexivity.
  - exists facts.
    assert (lits = Demo.snippets) as ->.
    { destruct Hsec as (Hlits & _). vm_compute in Hlits. by injection Hlits. }
    by split.
Defined.

(** ** The interactions of one call *)

(** The literature loop raises or ends; it never stops the script. *)
Lemma literature_loop_not_stopped (chunk_res : list ChunkRecord)
    (dump : list string) :
  literature_loop chunk_res dump ≠ Stopped.
Proof.
  revert dump. induction chunk_res as [|rec rest IH]; intros dump; simpl;
    [done |].
  unfold snippet_line. destruct (rec_text rec); [apply IH | done].
Qed.

Ltac course :=
  eexists _, _; cbn [trace history clients]; rewrite <- ?app_assoc;
  (split; [reflexivity |]); (split; [discriminate |]).

(** Whatever the services do, a call of [run_hybrid_query] has one of four
    courses. It asks for the embedding and returns the error text; or it
    goes on, opens the session, and fails in or after the literature query;
    or it fails in the entity query; or it reads both results, prints the
    debug line, and asks the generative model. A session that was opened is
    closed in every course, before the model is asked; both queries get the
    same vector; session state and client cache are left alone; and the call
    never stops the script. *)
Theorem call_has_one_of_four_courses (sv : Services) (q : string) (st : State) :
  ∃ out new,
    run_hybrid_query sv q st
    = (out, mk_state (trace st ++ new) (history st) (clients st))
    ∧ out ≠ Stopped
    ∧ ((new = [EvEmbedContent EMBEDDING_MODEL q]
        ∧ ∃ ans, out = Ok (ans, EmptyString))
       ∨ ∃ vec,
           (new = [EvEmbedContent EMBEDDING_MODEL q; EvSessionOpen;
                   EvRun ChunkQuery vec; EvSessionClose]
            ∧ ∃ e, out = Raise e)
           ∨ (new = [EvEmbedContent EMBEDDING_MODEL q; EvSessionOpen;
                     EvRun ChunkQuery vec; EvRun TripleQuery vec;
                     EvSessionClose]
              ∧ ∃ e, out = Raise e)
           ∨ ∃ line ctx,
               new = [EvEmbedContent EMBEDDING_MODEL q; EvSessionOpen;
                      EvRun ChunkQuery vec; EvRun TripleQuery vec;
                      EvPrint line; EvSessionClose;
                      EvGenerateContent GENERATIVE_MODEL (sys_prompt ctx q)]
               ∧ ((∃ ans, out = Ok (ans, ctx)) ∨ ∃ e, out = Raise e)).
Proof.
  unfold_run.
  destruct (embed_content sv (trace st) EMBEDDING_MODEL q) as [e|resp].
  { course. left. eauto. }
  unfold first_embedding_values.
  destruct (embeddings resp) as [[|emb rest]|].
  1,3: course; left; eauto.
  set (vec := values emb).
  cbn [trace history clients].
  destruct (db_fault sv _ ChunkQuery vec).
  { course. right. exists vec. left. eauto. }
  destruct (literature_loop _ _) as [dump| |] eqn:Hloop.
  2: { course. right. exists vec. left. eauto. }
  2: { by apply literature_loop_not_stopped in Hloop. }
  cbn [trace history clients].
  destruct (db_fault sv _ TripleQuery vec).
  { course. right. exists vec. right. left. eauto. }
  destruct (facts_loop _ _ _) as [dump2 seen].
  cbn [trace history clients].
  destruct (generate_content sv _ _ _);
    course; right; exists vec; right; right; eexists _, _; eauto.
Qed.

(** ** A literature record without text *)

(** When one of the records of the literature query has no text, the call
    ends with a [TypeError]: the entity query is not run, the session is
    closed, and the generative model is not asked. *)
Theorem record_without_text_aborts_call (sv : Services) (q : string)
    (st st1 : State) (vec : Vec) :
  embed_query sv q st = (Ok vec, st1) →
  db_fault sv (trace st ++ [EvEmbedContent EMBEDDING_MODEL q; EvSessionOpen])
    ChunkQuery vec = None →
  (∃ rec, rec ∈ chunk_rows sv q vec st ∧ rec_text rec = None) →
  run_hybrid_query sv q st
  = (Raise (TypeError "'NoneType' object is not subscriptable"),
     mk_state (trace st ++ [EvEmbedContent EMBEDDING_MODEL q; EvSessionOpen;
                            EvRun ChunkQuery vec; EvSessionClose])
       (history st) (clients st)).
Proof.
  intros Hemb Hdb Hnull.
  rewrite (run_hybrid_query_embedded _ _ _ _ _ Hemb).
  apply embed_query_state in Hemb as [-> _].
  unfold session_body, bind, sess_run, lift, log_event.
  cbn [trace history clients]. rewrite <- !app_assoc.
  change ([EvEmbedContent EMBEDDING_MODEL q] ++ [EvSessionOpen])
    with [EvEmbedContent EMBEDDING_MODEL q; EvSessionOpen].
  rewrite Hdb.
  rewrite literature_loop_null_text by exact Hnull.
  cbn [trace history clients]. by rewrite <- !app_assoc.
Qed.

Lemma record_without_text_aborts_call_witness :
  run_hybrid_query Demo.untexted Demo.question Demo.start
  = (Raise (TypeError "'NoneType' object is not subscriptable"),
     mk_state [EvEmbedContent EMBEDDING_MODEL Demo.question; EvSessionOpen;
               EvRun ChunkQuery Demo.vec; EvSessionClose] None None).
Proof.
  apply (record_without_text_aborts_call Demo.untexted Demo.question
           Demo.start Demo.embedded Demo.vec).
  - vm_compute. reflexivity.
  - reflexivity.
  - exists (mk_chunk None Demo.sc_050). split; [| reflexivity].
    apply list_elem_of_In. vm_compute. auto.
Defined.

(** ** The debug line *)

Lemma session_body_print (sv : Services) (q : string) (vec : Vec)
    (st st' : State) (dump : list string) :
  session_body sv q vec [] st = (Ok dump, st') →
  let triple_res :=
    triple_query (db_graph sv (trace st ++ [EvRun ChunkQuery vec])) vec in
  trace st'
  = trace st ++ [EvRun ChunkQuery vec; EvRun TripleQuery vec;
                 EvPrint (debug_line (length (fact_lines triple_res)) q)].
Proof.
  unfold session_body, bind, sess_run, lift, emit, ret. simpl.
  destruct (db_fault sv (trace st) ChunkQuery vec); [done |].
  destruct (literature_loop _ [LITERATURE_HEADER]) as [dump1| |]; try done.
  simpl.
  destruct (db_fault sv _ TripleQuery vec); [done |].
  destruct (facts_loop _ _ _) as [dump2 seen] eqn:Hfacts.
  intros [= <- <-].
  apply (f_equal snd) in Hfacts. simpl in Hfacts.
  pose proof (facts_loop_seen_size
                (triple_query (db_graph sv (trace st ++ [EvRun ChunkQuery vec])) vec)
                (dump1 ++ [FACTS_HEADER]) ∅) as Hsize.
  rewrite size_empty in Hsize. simpl in Hsize.
  unfold log_event, debug_line, fact_lines. cbn [trace].
  rewrite <- !app_assoc. do 4 f_equal.
  rewrite <- Hsize. by rewrite <- Hfacts.
Qed.

(** In a call that returns with its evidence, the number in the printed
    debug line is the number of fact lines of the evidence. *)
Theorem debug_line_counts_fact_lines (sv : Services) (q : string)
    (st st1 st' : State) (vec : Vec) (ans ctx : string) :
  embed_query sv q st = (Ok vec, st1) →
  run_hybrid_query sv q st = (Ok (ans, ctx), st') →
  ∃ lits facts,
    evidence_sections sv q vec st ctx lits facts
    ∧ trace st'
      = trace st ++ [EvEmbedContent EMBEDDING_MODEL q; EvSessionOpen;
                     EvRun ChunkQuery vec; EvRun TripleQuery vec;
                     EvPrint (debug_line (length facts) q); EvSessionClose;
                     EvGenerateContent GENERATIVE_MODEL (sys_prompt ctx q)].
Proof.
  intros Hemb Hrun.
  destruct (run_hybrid_query_Ok _ _ _ _ _ _ _ _ Hemb Hrun)
    as (lits & facts & line & Hsec & _ & _).
  exists lits, facts. split; [done |].
  destruct Hsec as (_ & -> & _).
  rewrite (run_hybrid_query_embedded _ _ _ _ _ Hemb) in Hrun.
  apply embed_query_state in Hemb as [-> _].
  destruct (session_body _ _ _ _ _) as [[dump|e|] st2] eqn:Hbody; try done.
  apply session_body_print in Hbody. cbn zeta in Hbody, Hrun.
  destruct (generate_content sv _ _ _) as [e|final]; [done |].
  injection Hrun as _ <- <-.
  unfold log_event in *. cbn [trace history clients] in *.
  rewrite Hbody. rewrite <- !app_assoc. reflexivity.
Qed.

Lemma debug_line_counts_fact_lines_witness :
  EvPrint "DEBUG: Found 2 unique graph facts for query: 'What inhibits EGFR?'"
  ∈ trace Demo.finished.
Proof.
  destruct (debug_line_counts_fact_lines Demo.services Demo.question
              Demo.start Demo.embedded Demo.finished Demo.vec Demo.answer
              Demo.evidence)
    as (lits & facts & Hsec & Htrace).
  - vm_compute. reflexivity.
  - vm_compute. reflexivity.
  - assert (facts = Demo.facts) as ->.
    { destruct Hsec as (_ & -> & _). vm_compute. reflexivity. }
    rewrite Htrace. apply list_elem_of_In. vm_compute. auto 10.
Defined.

(** ** Completeness of the entity query *)

(** As long as the limit of 15 rows is not reached, nothing is left out:
    every stored relationship that touches an entity returned by the index
    with a score above 0.72 gives a row, and so a fact line. The row reads
    from the entity outwards, whatever the direction of the relationship:
    its subject is the entity, its object the node at the other side. *)
Theorem rows_complete_below_limit (g : Graph) (vec : Vec) (start : Node)
    (sc : score) (r : Rel) :
  length (triple_query g vec) < 15 →
  (start, sc) ∈ queryNodes g "entity_vectors" 5 vec →
  above_threshold sc = true →
  r ∈ relationships g →
  touches r start →
  let other := if Nat.eqb (node_id (rel_start r)) (node_id start)
               then rel_end r else rel_start r in
  let row := mk_triple (node_name start) (rel_type r) (node_name other)
                       (rel_evidence r) in
  row ∈ triple_query g vec
  ∧ fact_line (triple_of row) ∈ fact_lines (triple_query g vec).
Proof.
  intros Hlen Hhit Habove Hr Htouch other row.
  assert (row ∈ triple_query g vec) as Hrow.
  { unfold triple_query in *. rewrite length_take in Hlen.
    rewrite take_ge by lia.
    apply list_elem_of_In, in_flat_map. exists (start, sc). split.
    - apply filter_In. split; [by apply list_elem_of_In | done].
    - apply list_elem_of_In. unfold expand. simpl.
      apply list_elem_of_fmap. exists (r, other). split; [done |].
      unfold one_hop. apply list_elem_of_omap. exists r. split; [done |].
      unfold other_end, other.
      destruct (Nat.eqb (node_id (rel_start r)) (node_id start)) eqn:E1;
        [done |].
      destruct Htouch as [Hs|He].
      + apply Nat.eqb_eq in Hs. congruence.
      + apply Nat.eqb_eq in He. by rewrite He. }
  split; [done |].
  rewrite fact_lines_first_occurrences. apply list_elem_of_fmap_2.
  apply elem_of_unseen. split; [by apply list_elem_of_fmap_2 | set_solver].
Qed.

Lemma rows_complete_below_limit_witness :
  fact_line "EGFR -> INHIBITS -> Erlotinib"
  ∈ fact_lines (triple_query Demo.graph Demo.vec).
Proof.
  apply (rows_complete_below_limit Demo.graph Demo.vec Demo.egfr Demo.sc_090
           (mk_rel "INHIBITS" Demo.erlotinib Demo.egfr None)).
  - vm_compute. lia.
  - apply list_elem_of_In. vm_compute. auto.
  - reflexivity.
  - apply list_elem_of_In. vm_compute. auto.
  - right. reflexivity.
Defined.

(** ** The conversation *)

Lemma render_history_events (msgs : list ChatMessage) (st : State) :
  render_history msgs st
  = (Ok tt, mk_state (trace st ++ render_events msgs) (history st) (clients st)).
Proof.
  revert st. induction msgs as [|msg rest IH]; intros st; simpl.
  - unfold ret. rewrite app_nil_r. by destruct st.
  - unfold bind, emit. rewrite IH. unfold log_event.
    cbn [trace history clients]. by rewrite <- !app_assoc.
Qed.

(** The state in which [chat_turn] calls [run_hybrid_query]: the question is
    on record and the two chat bubbles are open. *)
Lemma chat_turn_steps (sv : Services) (q : string) (st : State) :
  let asked := default [] (history st) ++ [mk_message user q] in
  chat_turn sv q st
  = match run_hybrid_query sv q
            (mk_state (trace st ++ turn_opening q) (Some asked) (clients st)) with
    | (Ok (ans, raw_ev), st2) =>
        (Ok tt,
         mk_state (trace st2 ++ [EvSt "markdown" ans;
                                 EvSt "expander" "Inspect Retrieval Evidence";
                                 EvSt "code" raw_ev])
           (Some (default [] (history st2) ++ [mk_message assistant ans]))
           (clients st2))
    | (Raise e, st2) => (Raise e, st2)
    | (Stopped, st2) => (Stopped, st2)
    end.
Proof.
  unfold chat_turn, bind, append_history, emit, log_event, turn_opening.
  cbn [trace history clients]. rewrite <- !app_assoc. cbn [app].
  destruct (run_hybrid_query sv q _) as [[[ans raw_ev]|e|] st2]; try done.
  cbn [trace history clients]. by rewrite <- !app_assoc.
Qed.

(** A call leaves the session state and the client cache as they were. *)
Lemma run_hybrid_query_keeps_session (sv : Services) (q : string)
    (st st' : State) (out : Outcome (string * string)) :
  run_hybrid_query sv q st = (out, st') →
  history st' = history st ∧ clients st' = clients st.
Proof.
  destruct st as [tr h c]. rewrite run_hybrid_query_frame.
  destruct (run_hybrid_query sv q (mk_state tr None None)) as [out0 st0].
  by intros [= <- <-].
Qed.

(** A turn whose call returns puts exactly two messages at the end of the
    conversation, the question of the user and then the answer of the
    assistant, and leaves the earlier messages as they were; it shows the
    answer and then the evidence. *)
Theorem turn_records_question_then_answer (sv : Services) (q : string)
    (st st2 : State) (ans raw_ev : string) :
  let asked := default [] (history st) ++ [mk_message user q] in
  run_hybrid_query sv q
    (mk_state (trace st ++ turn_opening q) (Some asked) (clients st))
  = (Ok (ans, raw_ev), st2) →
  chat_turn sv q st
  = (Ok tt,
     mk_state (trace st2 ++ [EvSt "markdown" ans;
                             EvSt "expander" "Inspect Retrieval Evidence";
                             EvSt "code" raw_ev])
       (Some (default [] (history st)
              ++ [mk_message user q; mk_message assistant ans]))
       (clients st)).
Proof.
  intros asked Hrun. rewrite chat_turn_steps. fold asked. rewrite Hrun.
  apply run_hybrid_query_keeps_session in Hrun as [-> ->].
  cbn [history clients]. unfold asked, default, from_option, id.
  by rewrite <- app_assoc.
Qed.

Lemma turn_records_question_then_answer_witness :
  history (chat_turn Demo.services Demo.question
             (mk_state [] (Some [mk_message user "Hello";
                                 mk_message assistant "Hi"]) None)).2
  = Some [mk_message user "Hello"; mk_message assistant "Hi";
          mk_message user Demo.question; mk_message assistant Demo.answer].
Proof.
  rewrite (turn_records_question_then_answer Demo.services Demo.question
             (mk_state [] (Some [mk_message user "Hello";
                                 mk_message assistant "Hi"]) None)
             (run_hybrid_query Demo.services Demo.question
                (mk_state (turn_opening Demo.question)
                   (Some [mk_message user "Hello"; mk_message assistant "Hi";
                          mk_message user Demo.question]) None)).2
             Demo.answer Demo.evidence).
  - reflexivity.
  - vm_compute. reflexivity.
Defined.

(** A turn whose call raises (the database or the generative model failed)
    ends with that exception: the question stays at the end of the
    conversation without an answer, and nothing is shown after the call. *)
Theorem failed_turn_keeps_question_only (sv : Services) (q : string)
    (st st2 : State) (e : exn) :
  let asked := default [] (history st) ++ [mk_message user q] in
  run_hybrid_query sv q
    (mk_state (trace st ++ turn_opening q) (Some asked) (clients st))
  = (Raise e, st2) →
  chat_turn sv q st = (Raise e, st2)
  ∧ history st2 = Some (default [] (history st) ++ [mk_message user q])
  ∧ clients st2 = clients st.
Proof.
  intros asked Hrun. rewrite chat_turn_steps. fold asked. rewrite Hrun.
  by apply run_hybrid_query_keeps_session in Hrun as [-> ->].
Qed.

Lemma failed_turn_keeps_question_only_witness :
  ∃ st2,
    chat_turn Demo.db_down Demo.question Demo.start
    = (Raise (mk_exn "ServiceUnavailable" "connection lost"), st2)
    ∧ history st2 = Some [mk_message user Demo.question].
Proof.
  eexists.
  destruct (failed_turn_keeps_question_only Demo.db_down Demo.question
              Demo.start
              (run_hybrid_query Demo.db_down Demo.question
                 (mk_state (turn_opening Demo.question)
                    (Some [mk_message user Demo.question]) None)).2
              (mk_exn "ServiceUnavailable" "connection lost"))
    as (Hturn & Hhist & _).
  - vm_compute. reflexivity.
  - split; [exact Hturn | exact Hhist].
Defined.

(** A failure of the embedding step does not fail the turn: the error text
    is shown and recorded as the answer of the assistant, with an empty
    evidence view, and the database and the generative model are not
    asked. *)
Theorem embedding_error_is_recorded_as_answer (sv : Services) (q : string)
    (st : State) (e : exn) :
  embed_content sv (trace st ++ turn_opening q) EMBEDDING_MODEL q = inl e →
  let ans := "Embedding Error: " +:+ exn_str e in
  chat_turn sv q st
  = (Ok tt,
     mk_state (trace st ++ turn_opening q
               ++ [EvEmbedContent EMBEDDING_MODEL q;
                   EvSt "markdown" ans;
                   EvSt "expander" "Inspect Retrieval Evidence";
                   EvSt "code" EmptyString])
       (Some (default [] (history st)
              ++ [mk_message user q; mk_message assistant ans]))
       (clients st)).
Proof.
  intros Hfail ans. rewrite chat_turn_steps.
  rewrite (run_hybrid_query_embed_failed sv q _
             (log_event (EvEmbedContent EMBEDDING_MODEL q)
                (mk_state (trace st ++ turn_opening q)
                   (Some (default [] (history st) ++ [mk_message user q]))
                   (clients st))) e).
  - unfold log_event. cbn [trace history clients].
    unfold default, from_option, id. by rewrite <- !app_assoc.
  - apply embed_query_Raise. by left.
Qed.

Lemma embedding_error_is_recorded_as_answer_witness :
  history (chat_turn Demo.embed_down Demo.question Demo.start).2
  = Some [mk_message user Demo.question;
          mk_message assistant "Embedding Error: 503 UNAVAILABLE"].
Proof.
  rewrite (embedding_error_is_recorded_as_answer Demo.embed_down
             Demo.question Demo.start (mk_exn "ServerError" "503 UNAVAILABLE")).
  - reflexivity.
  - reflexivity.
Defined.

(** ** A run of the script without a question *)

(** A look-up logs look-ups and nothing else, and never stops the script. *)
Lemma getenv_or_secret_frame (sv : Services) (name : string) (st : State) :
  ∃ out evs,
    getenv_or_secret sv name st
    = (out, mk_state (trace st ++ evs) (history st) (clients st))
    ∧ Forall (λ ev, startup_event ev = true) evs
    ∧ out ≠ Stopped.
Proof.
  rewrite getenv_or_secret_steps.
  destruct (truthy (process_env sv (trace st) !! name)).
  - eexists _, [_]. split; [reflexivity |]. split; [by repeat constructor | done].
  - unfold secret, bind, emit, ret, raise, log_event.
    cbn [trace history clients]. rewrite <- app_assoc.
    destruct (secrets_toml sv) as [store|]; [destruct (store !! name) |];
      eexists _, _; (split; [reflexivity |]);
      (split; [by repeat constructor | done]).
Qed.

(** The credentials block leaves session state and client cache alone, and
    when it hands out credentials it has made look-ups only. *)
Lemma load_credentials_frame (sv : Services) (st st1 : State)
    (out : Outcome Credentials) :
  load_credentials sv st = (out, st1) →
  ∃ evs,
    st1 = mk_state (trace st ++ evs) (history st) (clients st)
    ∧ (∀ creds, out = Ok creds → Forall (λ ev, startup_event ev = true) evs).
Proof.
  unfold load_credentials, try_except_class, bind, st_stop, emit, ret, log_event.
  destruct (getenv_or_secret_frame sv "GOOGLE_API_KEY" st)
    as (o1 & e1 & -> & H1 & N1).
  destruct o1 as [k|x|]; [| | done].
  2: { destruct (String.eqb (exn_class x) "KeyError");
         cbn [trace history clients]; intros [= <- <-]; eexists;
         rewrite <- ?app_assoc; (split; [reflexivity | done]). }
  destruct (getenv_or_secret_frame sv "NEO4J_URI"
              (mk_state (trace st ++ e1) (history st) (clients st)))
    as (o2 & e2 & -> & H2 & N2).
  cbn [trace history clients].
  destruct o2 as [uri|x|]; [| | done].
  2: { destruct (String.eqb (exn_class x) "KeyError");
         cbn [trace history clients]; intros [= <- <-]; eexists;
         rewrite <- ?app_assoc; (split; [reflexivity | done]). }
  destruct (getenv_or_secret_frame sv "NEO4J_USER"
              (mk_state ((trace st ++ e1) ++ e2) (history st) (clients st)))
    as (o3 & e3 & -> & H3 & N3).
  cbn [trace history clients].
  destruct o3 as [usr|x|]; [| | done].
  2: { destruct (String.eqb (exn_class x) "KeyError");
         cbn [trace history clients]; intros [= <- <-]; eexists;
         rewrite <- ?app_assoc; (split; [reflexivity | done]). }
  destruct (getenv_or_secret_frame sv "NEO4J_PASSWORD"
              (mk_state (((trace st ++ e1) ++ e2) ++ e3) (history st)
                 (clients st)))
    as (o4 & e4 & -> & H4 & N4).
  cbn [trace history clients].
  destruct o4 as [pw|x|]; [| | done].
  2: { destruct (String.eqb (exn_class x) "KeyError");
         cbn [trace history clients]; intros [= <- <-]; eexists;
         rewrite <- ?app_assoc; (split; [reflexivity | done]). }
  intros [= <- <-]. exists (e1 ++ e2 ++ e3 ++ e4).
  rewrite <- !app_assoc. split; [done |].
  intros _ _. by rewrite !Forall_app.
Qed.

Lemma startup_is_no_service (ev : Event) :
  startup_event ev = true → service_event ev = false.
Proof. by destruct ev. Qed.

(** When the credentials block has handed out its credentials and the chat
    input is empty ([None] or the empty string), the run goes on like this.
    With cached clients it draws the title, re-draws every stored message in
    order and offers the input box. Without, it first builds the clients
    with the credentials; if a constructor raises, the run ends there with
    that exception, before the title, and nothing is cached. In every case
    the run asks neither the embedding service nor the database nor the
    generative model, and the conversation keeps its messages (an absent one
    becomes the empty list once the title is drawn). *)
Theorem idle_run_asks_no_service (sv : Services) (user_in : option string)
    (st st1 : State) (creds : Credentials) :
  load_credentials sv
    (log_event (EvSt "set_page_config" "ARC: Cancer Research Assistant") st)
  = (Ok creds, st1) →
  truthy user_in = false →
  let msgs := default [] (history st) in
  let page :=
    [EvSt "title" "ARC: Cancer Research Assistant"]
    ++ render_events msgs
    ++ [EvSt "chat_input" "Query the knowledge base..."] in
  app sv user_in st
  = match clients st with
    | Some cached =>
        (Ok tt, mk_state (trace st1 ++ page) (Some msgs) (Some cached))
    | None =>
        match make_clients sv (trace st1) creds with
        | Some e =>
            (Raise e,
             mk_state (trace st1 ++ [EvConnect creds]) (history st) None)
        | None =>
            (Ok tt,
             mk_state (trace st1 ++ [EvConnect creds] ++ page) (Some msgs)
               (Some creds))
        end
    end
  ∧ ∃ evs,
      trace st1 = trace st ++ evs
      ∧ Forall (λ ev, service_event ev = false)
          (evs ++ [EvConnect creds] ++ page).
Proof.
  intros Hload Hidle msgs page. split.
  - unfold app, bind, emit. cbv beta. rewrite Hload.
    apply load_credentials_frame in Hload as (evs & -> & _).
    unfold get_clients, init_history, log_event, page, msgs.
    cbn [trace history clients]. rewrite Hidle. unfold ret.
    destruct (clients st) as [cached|]; cbn [trace history clients].
    + destruct (history st) as [h|]; cbn [trace history clients];
        rewrite render_history_events; cbn [trace history clients];
        unfold default, from_option, id; rewrite <- ?app_assoc; reflexivity.
    + destruct (make_clients sv _ creds) as [e|]; [done |].
      cbn [trace history clients].
      destruct (history st) as [h|]; cbn [trace history clients];
        rewrite render_history_events; cbn [trace history clients];
        unfold default, from_option, id; rewrite <- ?app_assoc; reflexivity.
  - apply load_credentials_frame in Hload as (evs & -> & Hevs).
    exists (EvSt "set_page_config" "ARC: Cancer Research Assistant" :: evs).
    split; [cbn [log_event trace]; by rewrite <- app_assoc |].
    rewrite !Forall_app. split; [| split; [by repeat constructor |]].
    + constructor; [done |].
      eapply Forall_impl; [by eapply Hevs |]. apply startup_is_no_service.
    + unfold page. rewrite !Forall_app. repeat split.
      * by repeat constructor.
      * unfold render_events. induction msgs as [|msg rest IH]; simpl;
          by repeat constructor.
      * by repeat constructor.
Qed.

Lemma idle_run_asks_no_service_witness :
  app Demo.services (Some EmptyString)
    (mk_state [] (Some [mk_message user "Hello"; mk_message assistant "Hi"])
       None)
  = (Ok tt,
     mk_state
       [EvSt "set_page_config" "ARC: Cancer Research Assistant";
        EvGetenv "GOOGLE_API_KEY"; EvGetenv "NEO4J_URI";
        EvGetenv "NEO4J_USER"; EvGetenv "NEO4J_PASSWORD";
        EvConnect (mk_credentials "k" "bolt://db" ("neo4j", "pw"));
        EvSt "title" "ARC: Cancer Research Assistant";
        EvSt "chat_message" "user"; EvSt "markdown" "Hello";
        EvSt "chat_message" "assistant"; EvSt "markdown" "Hi";
        EvSt "chat_input" "Query the knowledge base..."]
       (Some [mk_message user "Hello"; mk_message assistant "Hi"])
       (Some (mk_credentials "k" "bolt://db" ("neo4j", "pw"))))
  ∧ ∃ st',
      app Demo.empty_secrets None Demo.start
      = (Raise (mk_exn "ValueError" "Missing key inputs argument!"), st')
      ∧ clients st' = None.
Proof.
  split.
  - destruct (idle_run_asks_no_service Demo.services (Some EmptyString)
                (mk_state [] (Some [mk_message user "Hello";
                                    mk_message assistant "Hi"]) None)
                (mk_state
                   [EvSt "set_page_config" "ARC: Cancer Research Assistant";
                    EvGetenv "GOOGLE_API_KEY"; EvGetenv "NEO4J_URI";
                    EvGetenv "NEO4J_USER"; EvGetenv "NEO4J_PASSWORD"]
                   (Some [mk_message user "Hello"; mk_message assistant "Hi"])
                   None)
                (mk_credentials "k" "bolt://db" ("neo4j", "pw")))
      as [Happ _].
    + vm_compute. reflexivity.
    + reflexivity.
    + rewrite Happ. vm_compute. reflexivity.
  - destruct (idle_run_asks_no_service Demo.empty_secrets None Demo.start
                (load_credentials Demo.empty_secrets
                   (log_event (EvSt "set_page_config"
                                 "ARC: Cancer Research Assistant") Demo.start)).2
                (mk_credentials EmptyString EmptyString
                   (EmptyString, EmptyString)))
      as [Happ _].
    + vm_compute. reflexivity.
    + reflexivity.
    + eexists. rewrite Happ. vm_compute. split; reflexivity.
Defined.

(** ** Credentials: what the secret store may hold, and where the look-ups
    end *)

(** An empty string in the store is a value like any other, and is false
    for [os.getenv] when it has been copied into the environment. *)
Lemma empty_secret_resolved (sv : Services) (tr : list Event) (name : string) :
  truthy (environ sv !! name) = false →
  secrets sv !! name = Some EmptyString →
  resolved sv tr name = Some EmptyString
  ∧ lookups sv tr name = [EvGetenv name; EvSecret name].
Proof.
  intros Henv Hsec.
  assert (truthy (process_env sv tr !! name) = false) as Hfalse.
  { unfold process_env. destruct (secrets_loaded sv tr); [| done].
    by rewrite (lookup_union_Some_l _ _ _ _ Hsec). }
  unfold resolved, lookups. by rewrite Hfalse.
Qed.

(** The secret store is not tested for truth: when no variable is set (or
    all are empty) and the store holds an empty string for each of the four
    names, the block accepts the empty strings as credentials and neither
    shows the error nor stops. *)
Theorem empty_secrets_are_accepted (sv : Services) (st : State) :
  (∀ name, name ∈ CREDENTIAL_NAMES →
           truthy (environ sv !! name) = false
           ∧ secrets sv !! name = Some EmptyString) →
  load_credentials sv st
  = (Ok (mk_credentials EmptyString EmptyString (EmptyString, EmptyString)),
     mk_state (trace st ++ [EvGetenv "GOOGLE_API_KEY"; EvSecret "GOOGLE_API_KEY";
                            EvGetenv "NEO4J_URI"; EvSecret "NEO4J_URI";
                            EvGetenv "NEO4J_USER"; EvSecret "NEO4J_USER";
                            EvGetenv "NEO4J_PASSWORD"; EvSecret "NEO4J_PASSWORD"])
       (history st) (clients st)).
Proof.
  intros Hall.
  assert (∃ store, secrets_toml sv = Some store) as [store Hstore].
  { destruct (Hall "GOOGLE_API_KEY") as [_ Hsec];
      [unfold CREDENTIAL_NAMES; set_solver |].
    unfold secrets in Hsec. destruct (secrets_toml sv); [eauto | done]. }
  assert (∀ tr name, name ∈ CREDENTIAL_NAMES →
            resolved sv tr name = Some EmptyString
            ∧ lookups sv tr name = [EvGetenv name; EvSecret name]) as Hres.
  { intros tr name Hname. destruct (Hall name Hname) as [Henv Hsec].
    by apply empty_secret_resolved. }
  rewrite (load_credentials_steps _ _ _ Hstore). cbv zeta.
  destruct (Hres (trace st) "GOOGLE_API_KEY") as [-> ->];
    [unfold CREDENTIAL_NAMES; set_solver |].
  destruct (Hres (trace st ++ [EvGetenv "GOOGLE_API_KEY";
                               EvSecret "GOOGLE_API_KEY"]) "NEO4J_URI")
    as [-> ->]; [unfold CREDENTIAL_NAMES; set_solver |].
  match goal with
  | |- context [resolved sv ?tr "NEO4J_USER"] =>
      destruct (Hres tr "NEO4J_USER") as [-> ->];
        [unfold CREDENTIAL_NAMES; set_solver |]
  end.
  match goal with
  | |- context [resolved sv ?tr "NEO4J_PASSWORD"] =>
      destruct (Hres tr "NEO4J_PASSWORD") as [-> ->];
        [unfold CREDENTIAL_NAMES; set_solver |]
  end.
  reflexivity.
Qed.

Lemma empty_secrets_are_accepted_witness :
  (load_credentials Demo.empty_secrets Demo.start).1
  = Ok (mk_credentials EmptyString EmptyString (EmptyString, EmptyString)).
Proof.
  rewrite empty_secrets_are_accepted; [reflexivity |].
  intros name Hname. unfold CREDENTIAL_NAMES in Hname.
  repeat (apply elem_of_cons in Hname as [->|Hname];
          [split; vm_compute; reflexivity |]).
  by apply elem_of_nil in Hname.
Defined.

(** With a secrets file, the block gives up at the first credential it
    cannot resolve: when the API key is missing from the environment and
    from the file, it looks up nothing else, so the three database
    credentials are neither read from the environment nor from the secret
    store before the error is shown. *)
Theorem missing_api_key_ends_lookups (sv : Services)
    (store : gmap string string) (st : State) :
  secrets_toml sv = Some store →
  missing sv "GOOGLE_API_KEY" →
  load_credentials sv st
  = (Stopped,
     mk_state (trace st ++ [EvGetenv "GOOGLE_API_KEY"; EvSecret "GOOGLE_API_KEY";
                            EvSt "error" MISSING_SECRETS;
                            EvSt "stop" EmptyString])
       (history st) (clients st)).
Proof.
  intros Hstore Hmiss. rewrite (load_credentials_steps _ _ _ Hstore). cbv zeta.
  rewrite (missing_not_resolved _ _ _ Hmiss).
  unfold lookups. by rewrite (missing_stays_false _ _ _ Hmiss).
Qed.

Lemma missing_api_key_ends_lookups_witness :
  load_credentials Demo.empty_store_no_key Demo.start
  = (Stopped,
     mk_state [EvGetenv "GOOGLE_API_KEY"; EvSecret "GOOGLE_API_KEY";
               EvSt "error" MISSING_SECRETS; EvSt "stop" EmptyString]
       None None).
Proof.
  apply (missing_api_key_ends_lookups Demo.empty_store_no_key ∅ Demo.start).
  - reflexivity.
  - split; vm_compute; reflexivity.
Defined.

(** Without a secrets file, a credential that the environment does not give
    ends every run of the script with the exception of the secret store,
    which the handler for [KeyError] does not catch: the error message is
    not shown, [st.stop] is not called, and before the exception the run has
    done nothing but the page configuration and look-ups. *)
Theorem missing_credential_without_store_raises (sv : Services)
    (name : string) (user_in : option string) (st : State) :
  secrets_toml sv = None →
  name ∈ CREDENTIAL_NAMES →
  truthy (environ sv !! name) = false →
  ∃ new,
    app sv user_in st
    = (Raise StreamlitSecretNotFoundError,
       mk_state (trace st ++ new) (history st) (clients st))
    ∧ Forall (λ ev, startup_event ev = true) new
    ∧ EvSt "error" MISSING_SECRETS ∉ new
    ∧ EvSt "stop" EmptyString ∉ new.
Proof.
  intros Hnone Hname Hfalse.
  destruct (app_raises_without_store sv name user_in st Hnone Hname Hfalse)
    as (new & Happ & Hnew).
  exists new. split; [done |]. split; [done |].
  rewrite Forall_forall in Hnew.
  split; intros Hin; by apply Hnew in Hin.
Qed.

Lemma missing_credential_without_store_raises_witness :
  ∃ new,
    app Demo.no_store_no_key (Some Demo.question) Demo.start
    = (Raise StreamlitSecretNotFoundError,
       mk_state (trace Demo.start ++ new) (history Demo.start)
         (clients Demo.start))
    ∧ Forall (λ ev, startup_event ev = true) new
    ∧ EvSt "error" MISSING_SECRETS ∉ new
    ∧ EvSt "stop" EmptyString ∉ new.
Proof.
  apply (missing_credential_without_store_raises Demo.no_store_no_key
           "GOOGLE_API_KEY" (Some Demo.question) Demo.start).
  - reflexivity.
  - unfold CREDENTIAL_NAMES. set_solver.
  - vm_compute. reflexivity.
Defined.

(** ** The conversation only grows *)

Lemma chat_turn_history (sv : Services) (q : string) (st st' : State)
    (out : Outcome unit) :
  chat_turn sv q st = (out, st') →
  default [] (history st) `prefix_of` default [] (history st').
Proof.
  rewrite chat_turn_steps. cbv zeta.
  destruct (run_hybrid_query sv q _) as [[[ans raw_ev]|e|] st2] eqn:Hrun;
    apply run_hybrid_query_keeps_session in Hrun as [Hh _];
    cbn [history] in Hh; intros [= <- <-]; cbn [history]; rewrite ?Hh;
    unfold default, from_option, id.
  - rewrite <- app_assoc. by apply prefix_app_r.
  - by apply prefix_app_r.
  - by apply prefix_app_r.
Qed.

(** Whatever a run of the script does, and however it ends (normally, with
    an exception, or stopped for a missing credential), the messages that
    were in the conversation before the run are still its first messages
    afterwards, in the same order: the run only ever adds at the end. *)
Theorem conversation_is_append_only (sv : Services) (user_in : option string)
    (st st' : State) (out : Outcome unit) :
  app sv user_in st = (out, st') →
  default [] (history st) `prefix_of` default [] (history st').
Proof.
  unfold app, bind, emit. cbv beta.
  destruct (load_credentials sv _) as [ocreds st1] eqn:Hload.
  apply load_credentials_frame in Hload as (evs & -> & _).
  unfold log_event. cbn [trace history clients].
  destruct ocreds as [creds|e|]; [| by intros [= <- <-] ..].
  unfold get_clients, init_history. cbn [trace history clients].
  destruct (clients st) as [cached|]; cbn [trace history clients].
  - destruct (history st) as [h|]; cbn [trace history clients];
      rewrite render_history_events; cbn [trace history clients];
      (destruct (truthy user_in);
       [ intros Hturn; apply chat_turn_history in Hturn; exact Hturn
       | unfold ret; by intros [= <- <-] ]).
  - destruct (make_clients sv _ creds) as [e|]; [by intros [= <- <-] |].
    cbn [trace history clients].
    destruct (history st) as [h|]; cbn [trace history clients];
      rewrite render_history_events; cbn [trace history clients];
      (destruct (truthy user_in);
       [ intros Hturn; apply chat_turn_history in Hturn; exact Hturn
       | unfold ret; by intros [= <- <-] ]).
Qed.

Lemma conversation_is_append_only_witness :
  ∃ st',
    app Demo.db_down (Some Demo.question)
      (mk_state [] (Some [mk_message user "Hello"; mk_message assistant "Hi"])
         None)
    = (Raise (mk_exn "ServiceUnavailable" "connection lost"), st')
    ∧ [mk_message user "Hello"; mk_message assistant "Hi"]
      `prefix_of` default [] (history st').
Proof.
  eexists. split.
  - vm_compute. reflexivity.
  - apply (conversation_is_append_only Demo.db_down (Some Demo.question)
             (mk_state [] (Some [mk_message user "Hello";
                                 mk_message assistant "Hi"]) None)
             _ (Raise (mk_exn "ServiceUnavailable" "connection lost"))).
    vm_compute. reflexivity.
Defined.
